(** * example-ecs: the deployment-time initializer (RDSInit / example-ecs-stack)

    A shallow embedding of the [CdkResourceInitializer] construct and of
    [ExampleFargateStack.createServerlessRDS], together with the runtime
    pieces they call ([JSON.stringify], [createHash('md5')]) and the
    lifecycle of the custom resource they declare.

    Strings are Rocq [string]s read as the UTF-8 bytes of the JavaScript
    string (well-formed strings, i.e. without lone surrogates): this is the
    byte sequence [Hash.update] digests, and [JSON.stringify] leaves every
    byte above 0x7f as it is. *)

From Stdlib Require Import ZArith List Ascii String Bool Lia.
Import ListNotations.

#[local] Open Scope string_scope.
#[local] Open Scope Z_scope.

(** ** Bytes of a string *)

Definition byte_of_ascii (c : ascii) : Z := Z.of_N (N_of_ascii c).

Fixpoint bytes_of_string (s : string) : list Z :=
  match s with
  | EmptyString => []
  | String c s' => byte_of_ascii c :: bytes_of_string s'
  end.

(** ** Lowercase hexadecimal digits *)

Definition hex_chars : list ascii :=
  ["0"; "1"; "2"; "3"; "4"; "5"; "6"; "7";
   "8"; "9"; "a"; "b"; "c"; "d"; "e"; "f"]%char.

Definition hex_digit (n : Z) : ascii :=
  nth (Z.to_nat (Z.land n 15)) hex_chars "0"%char.

Definition is_lower_hex (c : ascii) : bool :=
  existsb (Ascii.eqb c) hex_chars.

(** Two digits for one byte, high nibble first. *)
Definition hex_of_byte (b : Z) (rest : string) : string :=
  String (hex_digit (Z.shiftr b 4)) (String (hex_digit b) rest).

Fixpoint hex_of_bytes (bs : list Z) : string :=
  match bs with
  | [] => EmptyString
  | b :: bs' => hex_of_byte b (hex_of_bytes bs')
  end.

(** ** MD5 (RFC 1321), as computed by [createHash('md5')] *)

Module MD5.

Definition wrap32 (x : Z) : Z := Z.land x 0xFFFFFFFF.

Definition add32 (x y : Z) : Z := wrap32 (x + y).

Definition not32 (x : Z) : Z := Z.lxor x 0xFFFFFFFF.

Definition rotl32 (x c : Z) : Z :=
  wrap32 (Z.lor (Z.shiftl x c) (Z.shiftr x (32 - c))).

Definition shifts : list Z :=
  [7; 12; 17; 22; 7; 12; 17; 22; 7; 12; 17; 22; 7; 12; 17; 22;
   5;  9; 14; 20; 5;  9; 14; 20; 5;  9; 14; 20; 5;  9; 14; 20;
   4; 11; 16; 23; 4; 11; 16; 23; 4; 11; 16; 23; 4; 11; 16; 23;
   6; 10; 15; 21; 6; 10; 15; 21; 6; 10; 15; 21; 6; 10; 15; 21].

Definition sines : list Z :=
  [0xd76aa478; 0xe8c7b756; 0x242070db; 0xc1bdceee;
   0xf57c0faf; 0x4787c62a; 0xa8304613; 0xfd469501;
   0x698098d8; 0x8b44f7af; 0xffff5bb1; 0x895cd7be;
   0x6b901122; 0xfd987193; 0xa679438e; 0x49b40821;
   0xf61e2562; 0xc040b340; 0x265e5a51; 0xe9b6c7aa;
   0xd62f105d; 0x02441453; 0xd8a1e681; 0xe7d3fbc8;
   0x21e1cde6; 0xc33707d6; 0xf4d50d87; 0x455a14ed;
   0xa9e3e905; 0xfcefa3f8; 0x676f02d9; 0x8d2a4c8a;
   0xfffa3942; 0x8771f681; 0x6d9d6122; 0xfde5380c;
   0xa4beea44; 0x4bdecfa9; 0xf6bb4b60; 0xbebfbc70;
   0x289b7ec6; 0xeaa127fa; 0xd4ef3085; 0x04881d05;
   0xd9d4d039; 0xe6db99e5; 0x1fa27cf8; 0xc4ac5665;
   0xf4292244; 0x432aff97; 0xab9423a7; 0xfc93a039;
   0x655b59c3; 0x8f0ccc92; 0xffeff47d; 0x85845dd1;
   0x6fa87e4f; 0xfe2ce6e0; 0xa3014314; 0x4e0811a1;
   0xf7537e82; 0xbd3af235; 0x2ad7d2bb; 0xeb86d391].

Record regs := Regs { rA : Z; rB : Z; rC : Z; rD : Z }.

Definition init : regs :=
  Regs 0x67452301 0xefcdab89 0x98badcfe 0x10325476.

(** The round function and the message-word index of step [i]. *)
Definition mix (i b c d : Z) : Z :=
  if i <? 16 then Z.lor (Z.land b c) (Z.land (not32 b) d)
  else if i <? 32 then Z.lor (Z.land d b) (Z.land (not32 d) c)
  else if i <? 48 then Z.lxor b (Z.lxor c d)
  else Z.lxor c (Z.lor b (not32 d)).

Definition word_index (i : Z) : Z :=
  if i <? 16 then i
  else if i <? 32 then (5 * i + 1) mod 16
  else if i <? 48 then (3 * i + 5) mod 16
  else (7 * i) mod 16.

Definition step (m : list Z) (r : regs) (i : nat) : regs :=
  let iz := Z.of_nat i in
  let f := mix iz (rB r) (rC r) (rD r) in
  let g := Z.to_nat (word_index iz) in
  let t := add32 (add32 (add32 f (rA r)) (nth i sines 0)) (nth g m 0) in
  Regs (rD r) (add32 (rB r) (rotl32 t (nth i shifts 0))) (rB r) (rC r).

(** Little-endian 32-bit words of a block. *)
Fixpoint words (bs : list Z) : list Z :=
  match bs with
  | b0 :: b1 :: b2 :: b3 :: rest =>
      (b0 + Z.shiftl b1 8 + Z.shiftl b2 16 + Z.shiftl b3 24) :: words rest
  | _ => []
  end.

Definition compress (r : regs) (block : list Z) : regs :=
  let r' := fold_left (step (words block)) (seq 0 64) r in
  Regs (add32 (rA r) (rA r')) (add32 (rB r) (rB r'))
       (add32 (rC r) (rC r')) (add32 (rD r) (rD r')).

Definition le_bytes (n : nat) (x : Z) : list Z :=
  map (fun k => Z.land (Z.shiftr x (8 * Z.of_nat k)) 255) (seq 0 n).

Definition pad (msg : list Z) : list Z :=
  let len := Z.of_nat (List.length msg) in
  msg ++ [128] ++ repeat 0 (Z.to_nat ((55 - len) mod 64))
      ++ le_bytes 8 (Z.land (8 * len) 0xFFFFFFFFFFFFFFFF).

Fixpoint blocks (fuel : nat) (bs : list Z) : list (list Z) :=
  match fuel, bs with
  | O, _ | _, [] => []
  | S fuel', _ => firstn 64 bs :: blocks fuel' (skipn 64 bs)
  end.

Definition digest_regs (msg : list Z) : regs :=
  let p := pad msg in
  fold_left compress (blocks (List.length p) p) init.

Definition digest_bytes (msg : list Z) : list Z :=
  let r := digest_regs msg in
  le_bytes 4 (rA r) ++ le_bytes 4 (rB r) ++ le_bytes 4 (rC r) ++ le_bytes 4 (rD r).

(** [createHash('md5').update(s).digest('hex')] *)
Definition hexdigest (s : string) : string :=
  hex_of_bytes (digest_bytes (bytes_of_string s)).

End MD5.

(** ** [JSON.stringify] on the values the construct serialises *)

Module JSON.

Definition dquote : ascii := "034"%char.
Definition backslash : ascii := "092"%char.

(** [\u00xx] for a control character without a short escape. *)
Definition unicode_escape (n : Z) (rest : string) : string :=
  String backslash (String "u" (String "0" (String "0" (hex_of_byte n rest)))).

(** QuoteJSONString, one character. *)
Definition quote_char (c : ascii) (rest : string) : string :=
  let n := byte_of_ascii c in
  if n =? 8 then String backslash (String "b" rest)
  else if n =? 9 then String backslash (String "t" rest)
  else if n =? 10 then String backslash (String "n" rest)
  else if n =? 12 then String backslash (String "f" rest)
  else if n =? 13 then String backslash (String "r" rest)
  else if n =? 34 then String backslash (String dquote rest)
  else if n =? 92 then String backslash (String backslash rest)
  else if n <? 32 then unicode_escape n rest
  else String c rest.

Fixpoint quote_body (s : string) (rest : string) : string :=
  match s with
  | EmptyString => rest
  | String c s' => quote_char c (quote_body s' rest)
  end.

(** [quote s rest] is the JSON text of the string [s] followed by [rest]. *)
Definition quote (s : string) (rest : string) : string :=
  String dquote (quote_body s (String dquote rest)).

(** An object whose property values are strings, as the list of its own
    properties in enumeration order (the order [JSON.stringify] walks). *)
Definition StringObject := list (string * string).

Definition member (kv : string * string) (rest : string) : string :=
  quote (fst kv) (String ":" (quote (snd kv) rest)).

Fixpoint members (o : StringObject) (rest : string) : string :=
  match o with
  | [] => rest
  | kv :: [] => member kv rest
  | kv :: o' => member kv (String "," (members o' rest))
  end.

Definition stringify_object (o : StringObject) (rest : string) : string :=
  String "{" (members o (String "}" rest)).

(** Reading a quoted string back: the inverse used to show that the
    serialisation loses nothing. *)
Definition unhex (c : ascii) : option Z :=
  let n := byte_of_ascii c in
  if (48 <=? n) && (n <=? 57) then Some (n - 48)
  else if (97 <=? n) && (n <=? 102) then Some (n - 87)
  else None.

Definition ascii_of_byte (n : Z) : ascii := ascii_of_N (Z.to_N n).

Fixpoint unquote_body (t : string) : option (string * string) :=
  match t with
  | EmptyString => None
  | String c t' =>
      if Ascii.eqb c dquote then Some (EmptyString, t')
      else if Ascii.eqb c backslash then
        match t' with
        | String e t'' =>
            let simple (d : ascii) :=
              match unquote_body t'' with
              | Some (s, r) => Some (String d s, r)
              | None => None
              end in
            if Ascii.eqb e "b" then simple "008"%char
            else if Ascii.eqb e "t" then simple "009"%char
            else if Ascii.eqb e "n" then simple "010"%char
            else if Ascii.eqb e "f" then simple "012"%char
            else if Ascii.eqb e "r" then simple "013"%char
            else if Ascii.eqb e dquote then simple dquote
            else if Ascii.eqb e backslash then simple backslash
            else if Ascii.eqb e "u" then
              match t'' with
              | String _ (String _ (String h (String l t3))) =>
                  match unhex h, unhex l, unquote_body t3 with
                  | Some hi, Some lo, Some (s, r) =>
                      Some (String (ascii_of_byte (16 * hi + lo)) s, r)
                  | _, _, _ => None
                  end
              | _ => None
              end
            else None
        | EmptyString => None
        end
      else
        match unquote_body t' with
        | Some (s, r) => Some (String c s, r)
        | None => None
        end
  end.

Definition unquote (t : string) : option (string * string) :=
  match t with
  | String c t' => if Ascii.eqb c dquote then unquote_body t' else None
  | EmptyString => None
  end.

End JSON.

(** ** The construct library's data, as far as the initializer uses it *)

Record PolicyStatement := {
  actions : list string;
  resources : list string
}.

(** An IAM role: its trust principal and the statements of its policy, in
    the order [addToPolicy] received them. *)
Record Role := {
  assumedBy : string;
  statements : list PolicyStatement
}.

Definition newRole (principal : string) : Role :=
  {| assumedBy := principal; statements := [] |}.

Definition addToPolicy (r : Role) (p : PolicyStatement) : Role :=
  {| assumedBy := assumedBy r; statements := statements r ++ [p] |}.

Record StackInfo := {
  stackName : string;
  region : string;
  account : string
}.

Record Vpc := { vpcId : string }.

Record SecurityGroup := {
  securityGroupName : string;
  sgVpc : Vpc;
  sgAllowAllOutbound : bool
}.

Record LambdaFunction := {
  runtime : string;
  memorySize : Z;
  functionName : string;
  code : string;
  handler : string;
  fnVpc : Vpc;
  securityGroups : list SecurityGroup;
  fnRole : Role;
  fnTimeoutSeconds : Z;
  fnAllowAllOutbound : bool;
  (** [currentVersion.version], assigned by the construct library *)
  currentVersion : string
}.

Record SdkParameters := {
  FunctionName : string;
  Payload : string
}.

Record AwsSdkCall := {
  service : string;
  action : string;
  parameters : SdkParameters;
  physicalResourceId : string
}.

(** [AwsCustomResourceProps]: the three lifecycle hooks are optional. *)
Record AwsCustomResource := {
  policyResources : list string;
  onCreate : option AwsSdkCall;
  onUpdate : option AwsSdkCall;
  onDelete : option AwsSdkCall;
  crTimeoutSeconds : Z;
  crRole : Role
}.

(** [AwsCustomResourcePolicy.ANY_RESOURCE] *)
Definition ANY_RESOURCE : list string := ["*"].

(** The token [getResponseField] returns: a reference to one field of the
    response, resolved at deployment. *)
Record ResponseField := { fieldOf : string }.

Definition getResponseField (cr : AwsCustomResource) (name : string)
  : ResponseField := {| fieldOf := name |}.

(** ** [CdkResourceInitializer] *)

Record CdkResourceInitializerProps := {
  vpc : Vpc;
  policies : list PolicyStatement;
  config : JSON.StringObject
}.

(** A configuration as [createServerlessRDS] writes it. *)
Definition mkConfig (creds db : string) : JSON.StringObject :=
  [("credsSecretName", creds); ("dbSecretName", db)].

Record CdkResourceInitializer := {
  response : ResponseField;
  customResource : AwsCustomResource;
  function : LambdaFunction;
  functionSG : SecurityGroup
}.

Definition logPolicy : PolicyStatement :=
  {| actions := ["logs:CreateLogGroup"; "logs:CreateLogStream";
                 "logs:PutLogEvents"];
     resources := ["arn:aws:logs:*:*:*"] |}.

Definition vpcAccessPolicyStatement : PolicyStatement :=
  {| actions := ["ec2:CreateNetworkInterface"; "ec2:DescribeNetworkInterfaces";
                 "ec2:DeleteNetworkInterface"];
     resources := ["*"] |}.

(** Lines 43-68: the execution role of the function. *)
Definition executionRole (props : CdkResourceInitializerProps) : Role :=
  let role := newRole "lambda.amazonaws.com" in
  let role := addToPolicy role logPolicy in
  let role := addToPolicy role vpcAccessPolicyStatement in
  fold_left addToPolicy (policies props) role.

(** Lines 82-86: [JSON.stringify({ params: { config: props.config } })]. *)
Definition payloadOf (cfg : JSON.StringObject) : string :=
  String "{" (JSON.quote "params" (String ":"
    (String "{" (JSON.quote "config" (String ":"
      (JSON.stringify_object cfg "}}")))))).

(** Lines 88-91. *)
Definition payloadHashPrefix (payload : string) : string :=
  substring 0 6 (MD5.hexdigest payload).

(** The template literal of lines 100-102. *)
Definition physicalIdOf (id version prefix : string) : string :=
  id ++ "-AwsSdkCall-" ++ (version ++ prefix).

Definition invokeStatement (stack : StackInfo) : PolicyStatement :=
  {| resources := ["arn:aws:lambda:" ++ region stack ++ ":" ++ account stack
                   ++ ":function:*-ResInit" ++ stackName stack];
     actions := ["lambda:InvokeFunction"] |}.

(** The constructor.  [version] is what the construct library reports as
    [fn.currentVersion.version]. *)
Definition newCdkResourceInitializer (stack : StackInfo) (id : string)
    (version : string) (props : CdkResourceInitializerProps)
  : CdkResourceInitializer :=
  let fnSg := {| securityGroupName := id ++ "ResourceInitializerFnSg";
                 sgVpc := vpc props;
                 sgAllowAllOutbound := true |} in
  let role := executionRole props in
  let fn := {| runtime := "nodejs14.x";
               memorySize := 128;
               functionName := id ++ "-ResInit" ++ stackName stack;
               code := "lambdas/rds-init";
               handler := "index.handler";
               fnVpc := vpc props;
               securityGroups := [fnSg];
               fnRole := role;
               fnTimeoutSeconds := 30;
               fnAllowAllOutbound := true;
               currentVersion := version |} in
  let payload := payloadOf (config props) in
  let prefix := payloadHashPrefix payload in
  let sdkCall := {| service := "Lambda";
                    action := "invoke";
                    parameters := {| FunctionName := functionName fn;
                                     Payload := payload |};
                    physicalResourceId :=
                      physicalIdOf id (currentVersion fn) prefix |} in
  let customResourceFnRole :=
    addToPolicy (newRole "lambda.amazonaws.com") (invokeStatement stack) in
  let cr := {| policyResources := ANY_RESOURCE;
               onCreate := None;
               onUpdate := Some sdkCall;
               onDelete := None;
               crTimeoutSeconds := 600;
               crRole := customResourceFnRole |} in
  {| response := getResponseField cr "Payload";
     customResource := cr;
     function := fn;
     functionSG := fnSg |}.

Definition demoStack : StackInfo :=
  {| stackName := "ExampleEcsStack"; region := "eu-west-1";
     account := "123456789012" |}.

Definition demoProps (cfg : JSON.StringObject) : CdkResourceInitializerProps :=
  {| vpc := {| vpcId := "VPC" |}; policies := []; config := cfg |}.

(** ** The lifecycle of the declared custom resource *)

Module Lifecycle.

(** Modelled from the spec: the Action Target, an external collaborator that
    consumes a configuration payload and returns a result payload or fails
    (sections 2 and 7); the result payload is a set of named fields
    (section 4.3). *)
Inductive Outcome :=
| Success (result : JSON.StringObject)
| InvocationError
| TimeoutError.

Record Invocation := {
  invokedFunction : string;
  invokedPayload : string
}.

(** The target may answer differently on each call: it sees the invocations
    made before this one. *)
Definition ActionTarget := list Invocation -> Invocation -> Outcome.

(** Modelled from the spec: the states of the Lifecycle Trigger
    (section 4.2). *)
Inductive Phase := Absent | Pending | Applied | Failed | Removed.

(** Modelled from the spec: what the Lifecycle Trigger keeps per logical
    resource: its state, the last recorded Physical Identity, the retained
    Invocation Result, and (for the proofs) the invocations issued so far,
    oldest first. *)
Record Trigger := {
  phase : Phase;
  recorded : option string;
  result : option JSON.StringObject;
  invocations : list Invocation
}.

Definition initial : Trigger :=
  {| phase := Absent; recorded := None; result := None; invocations := [] |}.

Definition sameIdentity (r : option string) (candidate : string) : bool :=
  match r with
  | Some p => String.eqb p candidate
  | None => false
  end.

(** Modelled from the spec: the hook consumed on create or update
    (section 6); the construct declares [onUpdate] only, which then serves
    both events. *)
Definition createOrUpdateHook (cr : AwsCustomResource) (s : Trigger)
  : option AwsSdkCall :=
  match recorded s, onCreate cr with
  | None, Some call => Some call
  | _, _ => onUpdate cr
  end.

Definition invocationOf (call : AwsSdkCall) : Invocation :=
  {| invokedFunction := FunctionName (parameters call);
     invokedPayload := Payload (parameters call) |}.

(** Modelled from the spec: entering Pending issues the invocation. *)
Definition begin (call : AwsSdkCall) (s : Trigger) : Trigger :=
  {| phase := Pending;
     recorded := recorded s;
     result := result s;
     invocations := invocations s ++ [invocationOf call] |}.

(** Modelled from the spec: on success Applied with the new Physical
    Identity and Invocation Result; on error or timeout Failed. *)
Definition complete (candidate : string) (o : Outcome) (s : Trigger)
  : Trigger :=
  match o with
  | Success r =>
      {| phase := Applied; recorded := Some candidate; result := Some r;
         invocations := invocations s |}
  | InvocationError | TimeoutError =>
      {| phase := Failed; recorded := recorded s; result := result s;
         invocations := invocations s |}
  end.

Definition invoke (target : ActionTarget) (call : AwsSdkCall) (s : Trigger)
  : Trigger :=
  complete (physicalResourceId call)
           (target (invocations s) (invocationOf call))
           (begin call s).

(** Modelled from the spec: the transition rule of section 4.2, one
    convergence pass.  The candidate Physical Identity is the one the
    construct put in its SDK call; the target is invoked when it differs
    from the last recorded one. *)
Definition converge (target : ActionTarget) (cr : AwsCustomResource)
    (s : Trigger) : Trigger :=
  match phase s with
  | Removed => s
  | _ =>
      match createOrUpdateHook cr s with
      | None => s
      | Some call =>
          if sameIdentity (recorded s) (physicalResourceId call) then s
          else invoke target call s
      end
  end.

(** Modelled from the spec: deletion of the enclosing resource runs the
    delete hook if one is declared (section 6) and ends in Removed. *)
Definition delete (target : ActionTarget) (cr : AwsCustomResource)
    (s : Trigger) : Trigger :=
  let s' := match onDelete cr with
            | None => s
            | Some call => invoke target call s
            end in
  {| phase := Removed; recorded := None; result := None;
     invocations := invocations s' |}.

Inductive Event :=
| CreateOrUpdate (cr : AwsCustomResource)
| Delete (cr : AwsCustomResource).

Definition step (target : ActionTarget) (s : Trigger) (e : Event) : Trigger :=
  match e with
  | CreateOrUpdate cr => converge target cr s
  | Delete cr => delete target cr s
  end.

Definition run (target : ActionTarget) (es : list Event) (s : Trigger)
  : Trigger := fold_left (step target) es s.

(** Modelled from the spec: the Result Publisher (section 4.3): a field of
    the Invocation Result resolves only in Applied. *)
Inductive Resolution :=
| Resolved (value : string)
| ResolutionError.

Fixpoint lookup (name : string) (o : JSON.StringObject) : option string :=
  match o with
  | [] => None
  | (k, v) :: o' => if String.eqb k name then Some v else lookup name o'
  end.

Definition resolve (s : Trigger) (f : ResponseField) : Resolution :=
  match phase s, result s with
  | Applied, Some r =>
      match lookup (fieldOf f) r with
      | Some v => Resolved v
      | None => ResolutionError
      end
  | _, _ => ResolutionError
  end.

End Lifecycle.

(** ** [ExampleFargateStack.createServerlessRDS] *)

Module StackBuild.

Record Secret := {
  secretName : string;
  secretArn : string
}.

(** The database cluster as the construct library hands it back: its
    [secret] property is optional. *)
Record ServerlessCluster := {
  clusterArn : string;
  secret : option Secret
}.

Record RdsServerlessCluster := {
  rdsPolicyStatement : PolicyStatement;
  cluster : ServerlessCluster;
  appSecret : Secret
}.

(** The stack under construction: the ids of the constructs created in its
    scope (oldest first), the [rdsServerlessCluster] field, the initializers
    created, and the ingress rules put on the cluster's security group. *)
Record StackState := {
  children : list string;
  rdsServerlessCluster : option RdsServerlessCluster;
  initializers : list CdkResourceInitializer;
  ingressRules : list (SecurityGroup * Z)
}.

Definition emptyStack : StackState :=
  {| children := []; rdsServerlessCluster := None; initializers := [];
     ingressRules := [] |}.

Inductive JsError :=
| ReferenceError (message : string)
| TypeError (message : string).

Inductive Completion (A : Type) :=
| Normal (a : A)
| Throw (e : JsError).
Arguments Normal {A} a.
Arguments Throw {A} e.

(** Construction code: it updates the stack and either returns or throws;
    a throw keeps the stack as it was when thrown. *)
Definition Build (A : Type) := StackState -> Completion A * StackState.

Definition ret {A} (a : A) : Build A := fun st => (Normal a, st).

Definition throw {A} (e : JsError) : Build A := fun st => (Throw e, st).

Definition bind {A B} (m : Build A) (k : A -> Build B) : Build B :=
  fun st =>
    match m st with
    | (Normal a, st') => k a st'
    | (Throw e, st') => (Throw e, st')
    end.

Notation "x <- m ;; k" := (bind m (fun x => k))
  (at level 61, m at next level, right associativity).
Notation "m ;;; k" := (bind m (fun _ => k))
  (at level 61, right associativity).

(** [new C(this, id, ...)]: the construct joins the scope. *)
Definition addChild (id : string) : Build unit :=
  fun st =>
    (Normal tt,
     {| children := children st ++ [id];
        rdsServerlessCluster := rdsServerlessCluster st;
        initializers := initializers st;
        ingressRules := ingressRules st |}).

Definition setRdsServerlessCluster (r : RdsServerlessCluster) : Build unit :=
  fun st =>
    (Normal tt,
     {| children := children st;
        rdsServerlessCluster := Some r;
        initializers := initializers st;
        ingressRules := ingressRules st |}).

Definition newInitializer (stack : StackInfo) (id version : string)
    (props : CdkResourceInitializerProps) : Build CdkResourceInitializer :=
  fun st =>
    let i := newCdkResourceInitializer stack id version props in
    (Normal i,
     {| children := children st ++ [id];
        rdsServerlessCluster := rdsServerlessCluster st;
        initializers := initializers st ++ [i];
        ingressRules := ingressRules st |}).

(** Lines 80-85 of the stack. *)
Definition addIngreesRuleToRDS (securityGroup : SecurityGroup) : Build unit :=
  fun st =>
    match rdsServerlessCluster st with
    | None =>
        (Throw (TypeError "Cannot read properties of undefined"), st)
    | Some _ =>
        (Normal tt,
         {| children := children st;
            rdsServerlessCluster := rdsServerlessCluster st;
            initializers := initializers st;
            ingressRules := ingressRules st ++ [(securityGroup, 5432)] |})
    end.

(** What the construct library supplies while the stack is built. *)
Record Library := {
  madeCluster : ServerlessCluster;
  madeAppSecret : Secret;
  madeVersion : string
}.

(** Lines 87-147 of the stack. *)
Definition createServerlessRDS (stack : StackInfo) (lib : Library) (vpc : Vpc)
  : Build unit :=
  addChild "default" ;;;
  addChild "Database" ;;;
  let rdsCluster := madeCluster lib in
  let rdsAdminSecret := secret rdsCluster in
  match rdsAdminSecret with
  | None => throw (ReferenceError "rdsAdminSecret is undefined")
  | Some rdsAdminSecret =>
      let adminDBPolicy :=
        {| actions := ["secretsmanager:GetSecretValue"];
           resources := [secretArn rdsAdminSecret] |} in
      addChild "rdsAppCredentials" ;;;
      let rdsAppSecret := madeAppSecret lib in
      let appDBPolicy :=
        {| actions := ["secretsmanager:GetSecretValue";
                       "secretsmanager:PutSecretValue"];
           resources := [secretArn rdsAppSecret] |} in
      let rdsPolicy :=
        {| actions := ["rds:*"]; resources := [clusterArn rdsCluster] |} in
      setRdsServerlessCluster
        {| cluster := rdsCluster;
           rdsPolicyStatement := rdsPolicy;
           appSecret := rdsAppSecret |} ;;;
      initializer <- newInitializer stack "Initializer" (madeVersion lib)
        {| vpc := vpc;
           policies := [appDBPolicy; adminDBPolicy; rdsPolicy];
           config := mkConfig (secretName rdsAdminSecret)
                              (secretName rdsAppSecret) |} ;;
      addIngreesRuleToRDS (functionSG initializer)
  end.

(** The lifecycle events a built stack gives rise to at deployment: one
    create-or-update per declared initializer. *)
Definition declaredEvents (st : StackState) : list Lifecycle.Event :=
  map (fun i => Lifecycle.CreateOrUpdate (customResource i)) (initializers st).

End StackBuild.

(** ** Resource patterns of a policy statement *)

Module IAM.

(** Wildcard matching of a resource or action pattern: [*] stands for any
    run of characters, [?] for any single one. *)
Fixpoint glob (p : string) : string -> bool :=
  match p with
  | EmptyString =>
      fun s => match s with EmptyString => true | String _ _ => false end
  | String c p' =>
      if Ascii.eqb c "*" then
        fix star (s : string) : bool :=
          glob p' s ||
          match s with
          | EmptyString => false
          | String _ s' => star s'
          end
      else if Ascii.eqb c "?" then
        fun s => match s with
                 | EmptyString => false
                 | String _ s' => glob p' s'
                 end
      else
        fun s => match s with
                 | EmptyString => false
                 | String d s' => Ascii.eqb c d && glob p' s'
                 end
  end.

Definition functionArn (stack : StackInfo) (name : string) : string :=
  "arn:aws:lambda:" ++ region stack ++ ":" ++ account stack
  ++ ":function:" ++ name.

(** A statement allows [act] on [arn] when one of its actions and one of its
    resources cover them. *)
Definition allows (st : PolicyStatement) (act arn : string) : bool :=
  existsb (fun a => glob a act) (actions st)
  && existsb (fun r => glob r arn) (resources st).

End IAM.

(** ** Predicates used in the statements *)

Fixpoint all_chars (p : ascii -> bool) (s : string) : bool :=
  match s with
  | EmptyString => true
  | String c s' => p c && all_chars p s'
  end.

(** Deep structural equality of two string-valued objects (the equality of
    payloads of spec section 3): the same properties with the same values,
    whatever the order they were set in. *)
Definition sameProperties (o1 o2 : JSON.StringObject) : Prop :=
  forall k, Lifecycle.lookup k o1 = Lifecycle.lookup k o2.

(** The Invocation Fingerprint of a configuration and the Physical Identity
    the construct computes from it. *)
Definition fingerprint (cfg : JSON.StringObject) : string :=
  payloadHashPrefix (payloadOf cfg).

Definition candidateOf (i : CdkResourceInitializer) : option string :=
  option_map physicalResourceId (onUpdate (customResource i)).

(** The invocation the construct's SDK call describes: the function it
    names and the payload it carries. *)
Definition invocationWith (stack : StackInfo) (id : string)
    (cfg : JSON.StringObject) : Lifecycle.Invocation :=
  {| Lifecycle.invokedFunction := id ++ "-ResInit" ++ stackName stack;
     Lifecycle.invokedPayload := payloadOf cfg |}.

(** ** Sample collaborators *)

Definition alwaysOk : Lifecycle.ActionTarget :=
  fun _ _ => Lifecycle.Success [("Payload", "done")].

Definition alwaysFails : Lifecycle.ActionTarget :=
  fun _ _ => Lifecycle.InvocationError.

Definition demoInitializer (version : string) (cfg : JSON.StringObject)
  : CdkResourceInitializer :=
  newCdkResourceInitializer demoStack "Initializer" version (demoProps cfg).

Definition demoPass (version : string) (cfg : JSON.StringObject)
  : Lifecycle.Event :=
  Lifecycle.CreateOrUpdate (customResource (demoInitializer version cfg)).

(** ** [ExampleFargateStack]: the whole stack *)

Module FargateStack.

Record KmsKey := {
  keyArn : string;
  enableKeyRotation : bool;
  keyRemovalPolicy : string
}.

Record Bucket := {
  encryptionKey : KmsKey;
  bucketRemovalPolicy : string;
  blockPublicAccess : string
}.

Record ExecuteCommandConfiguration := {
  execKmsKey : KmsKey;
  s3Bucket : Bucket;
  s3EncryptionEnabled : bool;
  s3KeyPrefix : string;
  logging : string
}.

Record Cluster := {
  clusterName : string;
  clusterVpc : Vpc;
  containerInsights : bool;
  executeCommandConfiguration : ExecuteCommandConfiguration
}.

(** The [ECSCluster] field of the stack. *)
Record ECSClusterField := {
  cluster : Cluster;
  kmsKey : KmsKey
}.

Record Repository := { repositoryName : string }.

Record ContainerImage := {
  imageRepository : Repository;
  imageTag : string
}.

Record ContainerDefinitionOptions := {
  image : ContainerImage;
  secrets : list (string * StackBuild.Secret)
}.

(** The [containerDef] argument of [runFargateContainer]. *)
Record ContainerDef := {
  secret : StackBuild.Secret;
  container : ContainerDefinitionOptions
}.

Record PortMapping := {
  containerPort : Z;
  protocol : string
}.

Record ContainerDefinition := {
  containerId : string;
  containerOptions : ContainerDefinitionOptions;
  portMappings : list PortMapping
}.

Definition addPortMappings (c : ContainerDefinition) (p : PortMapping)
  : ContainerDefinition :=
  {| containerId := containerId c;
     containerOptions := containerOptions c;
     portMappings := portMappings c ++ [p] |}.

Record FargateTaskDefinition := {
  taskRole : Role;
  containers : list ContainerDefinition
}.

(** [addToTaskRolePolicy] adds the statement to the policy of the task
    role the definition was created with. *)
Definition addToTaskRolePolicy (td : FargateTaskDefinition)
    (p : PolicyStatement) : FargateTaskDefinition :=
  {| taskRole := addToPolicy (taskRole td) p; containers := containers td |}.

Definition addContainer (td : FargateTaskDefinition)
    (c : ContainerDefinition) : FargateTaskDefinition :=
  {| taskRole := taskRole td; containers := containers td ++ [c] |}.

Record FargateService := {
  serviceCluster : Cluster;
  taskDefinition : FargateTaskDefinition;
  serviceName : string;
  enableExecuteCommand : bool;
  assignPublicIp : bool;
  serviceSecurityGroups : list SecurityGroup;
  subnetType : string
}.

Record TargetGroup := {
  targetGroupName : string;
  targetPort : Z;
  targets : list FargateService
}.

Record Listener := {
  listenerOpen : bool;
  listenerPort : Z;
  targetGroups : list TargetGroup
}.

Record ApplicationLoadBalancer := {
  albVpc : Vpc;
  internetFacing : bool;
  loadBalancerName : string;
  listeners : list Listener
}.

(** The stack object: the part [createServerlessRDS] works on, the
    [ECSCluster] field, and what was created in its scope besides: services,
    load balancers and outputs (oldest first). *)
Record State := {
  core : StackBuild.StackState;
  ECSCluster : option ECSClusterField;
  services : list FargateService;
  loadBalancers : list ApplicationLoadBalancer;
  outputs : list (string * string)
}.

Definition emptyState : State :=
  {| core := StackBuild.emptyStack; ECSCluster := None; services := [];
     loadBalancers := []; outputs := [] |}.

Definition Build (A : Type) := State -> StackBuild.Completion A * State.

Definition ret {A} (a : A) : Build A := fun st => (StackBuild.Normal a, st).

Definition bind {A B} (m : Build A) (k : A -> Build B) : Build B :=
  fun st =>
    match m st with
    | (StackBuild.Normal a, st') => k a st'
    | (StackBuild.Throw e, st') => (StackBuild.Throw e, st')
    end.

Notation "x <- m ;; k" := (bind m (fun x => k))
  (at level 61, m at next level, right associativity).
Notation "m ;;; k" := (bind m (fun _ => k))
  (at level 61, right associativity).

(** A method written against the smaller stack, run on the whole one. *)
Definition onCore {A} (m : StackBuild.Build A) : Build A :=
  fun st =>
    let out := m (core st) in
    (fst out,
     {| core := snd out;
        ECSCluster := ECSCluster st;
        services := services st;
        loadBalancers := loadBalancers st;
        outputs := outputs st |}).

Definition addChild (id : string) : Build unit :=
  onCore (StackBuild.addChild id).

Definition setECSCluster (f : ECSClusterField) : Build unit :=
  fun st =>
    (StackBuild.Normal tt,
     {| core := core st;
        ECSCluster := Some f;
        services := services st;
        loadBalancers := loadBalancers st;
        outputs := outputs st |}).

(** Reading a property of [this.rdsServerlessCluster] or [this.ECSCluster]
    before the field was assigned is a TypeError. *)
Definition readRdsServerlessCluster : Build StackBuild.RdsServerlessCluster :=
  fun st =>
    match StackBuild.rdsServerlessCluster (core st) with
    | Some r => (StackBuild.Normal r, st)
    | None =>
        (StackBuild.Throw
           (StackBuild.TypeError "Cannot read properties of undefined"), st)
    end.

Definition readECSCluster : Build ECSClusterField :=
  fun st =>
    match ECSCluster st with
    | Some f => (StackBuild.Normal f, st)
    | None =>
        (StackBuild.Throw
           (StackBuild.TypeError "Cannot read properties of undefined"), st)
    end.

Definition addService (s : FargateService) : Build unit :=
  fun st =>
    (StackBuild.Normal tt,
     {| core := core st;
        ECSCluster := ECSCluster st;
        services := services st ++ [s];
        loadBalancers := loadBalancers st;
        outputs := outputs st |}).

Definition addLoadBalancer (b : ApplicationLoadBalancer) : Build unit :=
  fun st =>
    (StackBuild.Normal tt,
     {| core := core st;
        ECSCluster := ECSCluster st;
        services := services st;
        loadBalancers := loadBalancers st ++ [b];
        outputs := outputs st |}).

Definition addOutput (name value : string) : Build unit :=
  fun st =>
    (StackBuild.Normal tt,
     {| core := core st;
        ECSCluster := ECSCluster st;
        services := services st;
        loadBalancers := loadBalancers st;
        outputs := outputs st ++ [(name, value)] |}).

(** What the construct library supplies while the whole stack is built. *)
Record Library := {
  rdsLibrary : StackBuild.Library;
  madeVpc : Vpc;
  madeKeyArn : string;
  madeDnsName : string
}.

(** Lines 80-85. *)
Definition addIngreesRuleToRDS (securityGroup : SecurityGroup) : Build unit :=
  onCore (StackBuild.addIngreesRuleToRDS securityGroup).

(** Lines 87-147. *)
Definition createServerlessRDS (stack : StackInfo) (lib : Library) (vpc : Vpc)
  : Build unit :=
  onCore (StackBuild.createServerlessRDS stack (rdsLibrary lib) vpc).

(** Lines 149-155. *)
Definition createECSTaskRole (name : string) : Build Role :=
  addChild (name ++ "-taskRole") ;;;
  let taskRole := newRole "ecs-tasks.amazonaws.com" in
  rds <- readRdsServerlessCluster ;;
  ret (addToPolicy taskRole (StackBuild.rdsPolicyStatement rds)).

(** Lines 157-191. *)
Definition createECSCluster (lib : Library) (vpc : Vpc) : Build unit :=
  addChild "ECSExecKmsKey" ;;;
  let kmsKey := {| keyArn := madeKeyArn lib;
                   enableKeyRotation := true;
                   keyRemovalPolicy := "destroy" |} in
  addChild "ECSExecBucket" ;;;
  let execBucket := {| encryptionKey := kmsKey;
                       bucketRemovalPolicy := "destroy";
                       blockPublicAccess := "BLOCK_ALL" |} in
  addChild "Cluster" ;;;
  let cluster :=
    {| clusterName := "Services";
       clusterVpc := vpc;
       containerInsights := true;
       executeCommandConfiguration :=
         {| execKmsKey := kmsKey;
            s3Bucket := execBucket;
            s3EncryptionEnabled := true;
            s3KeyPrefix := "exec-command-output";
            logging := "OVERRIDE" |} |} in
  setECSCluster {| cluster := cluster; kmsKey := kmsKey |}.

(** Lines 193-268.  The security group of the service is created without a
    name of its own (the empty name here). *)
Definition runFargateContainer (name : string) (vpc : Vpc) (cluster : Cluster)
    (containerDef : ContainerDef) : Build FargateService :=
  taskRole <- createECSTaskRole name ;;
  addChild (name ++ "-TaskDef") ;;;
  let fargateAppTaskDef := {| taskRole := taskRole; containers := [] |} in
  let fargateAppTaskDef :=
    addToTaskRolePolicy fargateAppTaskDef
      {| actions := ["secretsmanager:GetSecretValue"];
         resources := [StackBuild.secretArn (secret containerDef)] |} in
  let fargateAppTaskDef :=
    addToTaskRolePolicy fargateAppTaskDef
      {| actions := ["ssmmessages:CreateControlChannel";
                     "ssmmessages:CreateDataChannel";
                     "ssmmessages:OpenControlChannel";
                     "ssmmessages:OpenDataChannel"];
         resources := ["*"] |} in
  ecs <- readECSCluster ;;
  let fargateAppTaskDef :=
    addToTaskRolePolicy fargateAppTaskDef
      {| actions := ["kms:Decrypt"];
         resources := [keyArn (kmsKey ecs)] |} in
  let fargateContainer :=
    addPortMappings
      {| containerId := name ++ "-Container";
         containerOptions := container containerDef;
         portMappings := [] |}
      {| containerPort := 3000; protocol := "tcp" |} in
  let fargateAppTaskDef := addContainer fargateAppTaskDef fargateContainer in
  addChild (name ++ "-SecurityGroup") ;;;
  let fargateServiceSecurityGroup :=
    {| securityGroupName := ""; sgVpc := vpc; sgAllowAllOutbound := true |} in
  addIngreesRuleToRDS fargateServiceSecurityGroup ;;;
  addChild (name ++ "-Service") ;;;
  let fargateService :=
    {| serviceCluster := cluster;
       taskDefinition := fargateAppTaskDef;
       serviceName := name ++ "-Service";
       enableExecuteCommand := true;
       assignPublicIp := true;
       serviceSecurityGroups := [fargateServiceSecurityGroup];
       subnetType := "Public" |} in
  addService fargateService ;;;
  ret fargateService.

(** Lines 25-76: the constructor. *)
Definition newExampleFargateStack (stack : StackInfo) (lib : Library)
  : Build unit :=
  let name := "hep3go" in
  addChild "VPC" ;;;
  let vpc := madeVpc lib in
  createECSCluster lib vpc ;;;
  createServerlessRDS stack lib vpc ;;;
  addChild (name ++ "_ecrRepo") ;;;
  let ecrRepo := {| repositoryName := name ++ "_repo" |} in
  let image := {| imageRepository := ecrRepo; imageTag := "latest" |} in
  ecs <- readECSCluster ;;
  rds <- readRdsServerlessCluster ;;
  koaService <- runFargateContainer "koa-test" vpc (cluster ecs)
    {| secret := StackBuild.appSecret rds;
       container :=
         {| image := image;
            secrets := [("DB_CREDENTIALS", StackBuild.appSecret rds)] |} |} ;;
  addChild "ALB" ;;;
  addOutput "ALB URL" (madeDnsName lib) ;;;
  addChild "ALB URL" ;;;
  let listener :=
    {| listenerOpen := true;
       listenerPort := 80;
       targetGroups :=
         [ {| targetGroupName := "fargateServiceTarget";
              targetPort := 80;
              targets := [koaService] |} ] |} in
  addLoadBalancer
    {| albVpc := vpc;
       internetFacing := true;
       loadBalancerName := "ServicesLB";
       listeners := [listener] |}.

(** The ids [runFargateContainer] creates in the scope of the stack. *)
Definition serviceIds (name : string) : list string :=
  [name ++ "-taskRole"; name ++ "-TaskDef"; name ++ "-SecurityGroup";
   name ++ "-Service"].

End FargateStack.

(** ** Further predicates *)


(** A string [JSON.stringify] writes between the quotes as it is: no
    control character, no double quote, no backslash. *)
Definition plainText (s : string) : bool :=
  all_chars (fun c => let n := byte_of_ascii c in
                      (32 <=? n) && negb (n =? 34) && negb (n =? 92)) s.


(** ** Sample stack inputs *)

Definition demoAdminSecret : StackBuild.Secret :=
  {| StackBuild.secretName := "admin"; StackBuild.secretArn := "arn:admin" |}.

Definition demoAppSecret : StackBuild.Secret :=
  {| StackBuild.secretName := "app"; StackBuild.secretArn := "arn:app" |}.

Definition demoRdsLibrary (adminSecret : option StackBuild.Secret)
  : StackBuild.Library :=
  {| StackBuild.madeCluster :=
       {| StackBuild.clusterArn := "arn:aws:rds:db";
          StackBuild.secret := adminSecret |};
     StackBuild.madeAppSecret := demoAppSecret;
     StackBuild.madeVersion := "1" |}.

Definition demoLibrary (adminSecret : option StackBuild.Secret)
  : FargateStack.Library :=
  {| FargateStack.rdsLibrary := demoRdsLibrary adminSecret;
     FargateStack.madeVpc := {| vpcId := "VPC" |};
     FargateStack.madeKeyArn := "arn:key";
     FargateStack.madeDnsName := "alb.example.com" |}.

Definition demoKey : FargateStack.KmsKey :=
  {| FargateStack.keyArn := "arn:key";
     FargateStack.enableKeyRotation := true;
     FargateStack.keyRemovalPolicy := "destroy" |}.

Definition demoCluster : FargateStack.Cluster :=
  {| FargateStack.clusterName := "Services";
     FargateStack.clusterVpc := {| vpcId := "VPC" |};
     FargateStack.containerInsights := true;
     FargateStack.executeCommandConfiguration :=
       {| FargateStack.execKmsKey := demoKey;
          FargateStack.s3Bucket :=
            {| FargateStack.encryptionKey := demoKey;
               FargateStack.bucketRemovalPolicy := "destroy";
               FargateStack.blockPublicAccess := "BLOCK_ALL" |};
          FargateStack.s3EncryptionEnabled := true;
          FargateStack.s3KeyPrefix := "exec-command-output";
          FargateStack.logging := "OVERRIDE" |} |}.

Definition demoContainerDef : FargateStack.ContainerDef :=
  {| FargateStack.secret := demoAppSecret;
     FargateStack.container :=
       {| FargateStack.image :=
            {| FargateStack.imageRepository :=
                 {| FargateStack.repositoryName := "repo" |};
               FargateStack.imageTag := "latest" |};
          FargateStack.secrets := [("DB_CREDENTIALS", demoAppSecret)] |} |}.

(** The stack after [createServerlessRDS] alone, and after
    [createECSCluster] followed by [createServerlessRDS]. *)
Definition demoAfterRds : FargateStack.State :=
  snd (FargateStack.createServerlessRDS demoStack
         (demoLibrary (Some demoAdminSecret)) {| vpcId := "VPC" |}
         FargateStack.emptyState).


(** A character that is not a control character. *)
Definition printable (c : ascii) : bool := 32 <=? byte_of_ascii c.

(** An ingress rule for the database port. *)
Definition onPostgresPort (rule : SecurityGroup * Z) : Prop := snd rule = 5432.

(** [st'] holds what [st] held, plus constructs and at most one more ingress
    rule, on the database port. *)
Definition growsFrom (st st' : FargateStack.State) : Prop :=
  (exists ids,
     StackBuild.children (FargateStack.core st')
     = (StackBuild.children (FargateStack.core st) ++ ids)%list) /\
  (exists rules,
     StackBuild.ingressRules (FargateStack.core st')
     = (StackBuild.ingressRules (FargateStack.core st) ++ rules)%list /\
     Forall onPostgresPort rules /\ (List.length rules <= 1)%nat) /\
  (exists added,
     FargateStack.services st' = (FargateStack.services st ++ added)%list).

(** * Properties *)

(** ** The digest against known answers *)

Example md5_empty : MD5.hexdigest "" = "d41d8cd98f00b204e9800998ecf8427e".
Proof. vm_compute. reflexivity. Qed.

Example md5_abc : MD5.hexdigest "abc" = "900150983cd24fb0d6963f7d28e17f72".
Proof. vm_compute. reflexivity. Qed.

Example md5_alphabet :
  MD5.hexdigest "abcdefghijklmnopqrstuvwxyz" = "c3fcd3d76192e4007dfb496cca67e13b".
Proof. vm_compute. reflexivity. Qed.

Example md5_two_blocks :
  MD5.hexdigest
    "ABCDEFGHIJKLMNOPQRSTUVWXYZabcdefghijklmnopqrstuvwxyz0123456789"
  = "d174ab98d277d9f5a5611c2c9f419d9f".
Proof. vm_compute. reflexivity. Qed.

Example fingerprint_a_b :
  payloadHashPrefix (payloadOf (mkConfig "a" "b")) = "1d759c".
Proof. vm_compute. reflexivity. Qed.

Example fingerprint_a_c :
  payloadHashPrefix (payloadOf (mkConfig "a" "c")) = "270dce".
Proof. vm_compute. reflexivity. Qed.

Example fingerprint_reordered :
  payloadHashPrefix
    (payloadOf [("dbSecretName", "b"); ("credsSecretName", "a")]) = "445dc3".
Proof. vm_compute. reflexivity. Qed.

Example fingerprint_a_iky3l :
  payloadHashPrefix (payloadOf (mkConfig "a" "iky3l")) = "1d759c".
Proof. vm_compute. reflexivity. Qed.

(** ** Strings *)

Section StringFacts.

#[local] Open Scope nat_scope.

Lemma string_length_app (s t : string) :
  String.length (s ++ t) = String.length s + String.length t.
Proof. induction s as [|c s IH]; simpl; [reflexivity | now rewrite IH]. Qed.

Lemma app_cancel_l (s t u : string) : (s ++ t = s ++ u)%string -> t = u.
Proof.
  induction s as [|c s IH]; simpl; intros H; [assumption|].
  injection H as H. auto.
Qed.

(** A string splits in one way only into a head and a tail of known length. *)
Lemma app_split_by_length (s1 s2 t1 t2 : string) :
  (s1 ++ t1 = s2 ++ t2)%string ->
  String.length t1 = String.length t2 ->
  s1 = s2 /\ t1 = t2.
Proof.
  revert s2. induction s1 as [|c s1 IH]; intros [|d s2] H L; simpl in H.
  - auto.
  - exfalso. rewrite H in L. simpl in L. rewrite string_length_app in L. lia.
  - exfalso. rewrite <- H in L. simpl in L. rewrite string_length_app in L. lia.
  - injection H as -> H. destruct (IH _ H L) as [-> ->]. auto.
Qed.

Lemma length_substring_0 (n : nat) (s : string) :
  n <= String.length s -> String.length (substring 0 n s) = n.
Proof.
  revert s. induction n as [|n IH]; intros [|c s] L; simpl in *;
    try reflexivity; try lia.
  rewrite IH; [reflexivity | lia].
Qed.

Lemma all_chars_substring_0 (p : ascii -> bool) (n : nat) (s : string) :
  all_chars p s = true -> all_chars p (substring 0 n s) = true.
Proof.
  revert s. induction n as [|n IH]; intros [|c s] H; simpl in *;
    try reflexivity.
  apply andb_true_iff in H as [Hc Hs]. rewrite Hc. simpl. auto.
Qed.

End StringFacts.

(** ** Hexadecimal digests *)

Lemma hex_digit_lower (n : Z) : is_lower_hex (hex_digit n) = true.
Proof.
  unfold hex_digit.
  assert (B : 0 <= Z.land n 15 < 16).
  { change 15 with (Z.ones 4). rewrite Z.land_ones by lia.
    apply Z.mod_pos_bound. reflexivity. }
  assert (N : (Z.to_nat (Z.land n 15) < 16)%nat) by lia.
  revert N. generalize (Z.to_nat (Z.land n 15)). intros k N.
  do 16 (destruct k as [|k]; [reflexivity|]). lia.
Qed.

Lemma hex_of_bytes_length (bs : list Z) :
  String.length (hex_of_bytes bs) = (2 * List.length bs)%nat.
Proof. induction bs as [|b bs IH]; simpl; [reflexivity | rewrite IH; lia]. Qed.

Lemma hex_of_bytes_lower (bs : list Z) :
  all_chars is_lower_hex (hex_of_bytes bs) = true.
Proof.
  induction bs as [|b bs IH]; [reflexivity|].
  cbn [hex_of_bytes hex_of_byte all_chars].
  now rewrite !hex_digit_lower, IH.
Qed.

Lemma digest_bytes_length (msg : list Z) :
  List.length (MD5.digest_bytes msg) = 16%nat.
Proof.
  unfold MD5.digest_bytes, MD5.le_bytes.
  now rewrite !List.length_app, !length_map, !length_seq.
Qed.

Lemma hexdigest_length (s : string) :
  String.length (MD5.hexdigest s) = 32%nat.
Proof.
  unfold MD5.hexdigest. now rewrite hex_of_bytes_length, digest_bytes_length.
Qed.

Lemma hexdigest_lower (s : string) :
  all_chars is_lower_hex (MD5.hexdigest s) = true.
Proof. apply hex_of_bytes_lower. Qed.

(** The fingerprint prefix has six characters, all lowercase hexadecimal. *)
Lemma payloadHashPrefix_length (payload : string) :
  String.length (payloadHashPrefix payload) = 6%nat.
Proof.
  unfold payloadHashPrefix. apply length_substring_0.
  rewrite hexdigest_length. lia.
Qed.

Lemma payloadHashPrefix_lower (payload : string) :
  all_chars is_lower_hex (payloadHashPrefix payload) = true.
Proof. apply all_chars_substring_0, hexdigest_lower. Qed.

(** ** The Physical Identity *)

Lemma physicalIdOf_inj (id v1 v2 f1 f2 : string) :
  String.length f1 = String.length f2 ->
  physicalIdOf id v1 f1 = physicalIdOf id v2 f2 ->
  v1 = v2 /\ f1 = f2.
Proof.
  unfold physicalIdOf. intros L H.
  apply app_cancel_l in H. apply app_cancel_l in H.
  now apply app_split_by_length.
Qed.

Lemma candidateOf_new (stack : StackInfo) (id version : string)
    (props : CdkResourceInitializerProps) :
  candidateOf (newCdkResourceInitializer stack id version props)
  = Some (physicalIdOf id version (fingerprint (config props))).
Proof. reflexivity. Qed.

(** ** The serialisation loses nothing *)

Lemma unquote_body_quote_char (c : ascii) (t s r : string) :
  JSON.unquote_body t = Some (s, r) ->
  JSON.unquote_body (JSON.quote_char c t) = Some (String c s, r).
Proof.
  intros H.
  destruct c as [[] [] [] [] [] [] [] []]; simpl; rewrite H; reflexivity.
Qed.

Lemma unquote_body_quote_body (s r : string) :
  JSON.unquote_body (JSON.quote_body s (String JSON.dquote r)) = Some (s, r).
Proof.
  induction s as [|c s IH]; [reflexivity|].
  simpl JSON.quote_body. now apply unquote_body_quote_char.
Qed.

Lemma unquote_quote (s r : string) :
  JSON.unquote (JSON.quote s r) = Some (s, r).
Proof. apply unquote_body_quote_body. Qed.

Lemma quote_inj (s1 s2 r1 r2 : string) :
  JSON.quote s1 r1 = JSON.quote s2 r2 -> s1 = s2 /\ r1 = r2.
Proof.
  intros H. apply (f_equal JSON.unquote) in H.
  rewrite !unquote_quote in H. injection H as -> ->. auto.
Qed.

Lemma String_tail_inj (c : ascii) (s t : string) :
  String c s = String c t -> s = t.
Proof. now injection 1. Qed.

Lemma member_inj (kv1 kv2 : string * string) (r1 r2 : string) :
  JSON.member kv1 r1 = JSON.member kv2 r2 -> kv1 = kv2 /\ r1 = r2.
Proof.
  destruct kv1 as [k1 v1], kv2 as [k2 v2]. unfold JSON.member. simpl.
  intros H. apply quote_inj in H as [-> H].
  apply String_tail_inj in H. apply quote_inj in H as [-> ->]. auto.
Qed.

Lemma members_cons_cons (kv kv' : string * string) (o : JSON.StringObject)
    (r : string) :
  JSON.members (kv :: kv' :: o) r
  = JSON.member kv (String "," (JSON.members (kv' :: o) r)).
Proof. reflexivity. Qed.

Lemma members_single (kv : string * string) (r : string) :
  JSON.members [kv] r = JSON.member kv r.
Proof. reflexivity. Qed.

Lemma members_inj (o1 o2 : JSON.StringObject) (r1 r2 : string) :
  JSON.members o1 (String "}" r1) = JSON.members o2 (String "}" r2) ->
  o1 = o2 /\ r1 = r2.
Proof.
  revert o2 r1 r2.
  induction o1 as [|kv1 o1 IH]; intros [|kv2 o2] r1 r2 H.
  - apply String_tail_inj in H as ->. auto.
  - destruct o2; discriminate H.
  - destruct o1; discriminate H.
  - destruct o1 as [|kv1' o1], o2 as [|kv2' o2];
      rewrite ?members_cons_cons, ?members_single in H;
      apply member_inj in H as [-> H].
    + apply String_tail_inj in H as ->. auto.
    + discriminate H.
    + discriminate H.
    + apply String_tail_inj in H. apply IH in H as [-> ->]. auto.
Qed.

Lemma stringify_object_inj (o1 o2 : JSON.StringObject) (r1 r2 : string) :
  JSON.stringify_object o1 (String "}" r1)
  = JSON.stringify_object o2 (String "}" r2) ->
  o1 = o2.
Proof.
  unfold JSON.stringify_object. intros H. apply String_tail_inj in H.
  now apply members_inj in H as [-> _].
Qed.

(** Two configurations serialise to the same payload only when they are the
    same properties in the same order. *)
Lemma payloadOf_inj (c1 c2 : JSON.StringObject) :
  payloadOf c1 = payloadOf c2 -> c1 = c2.
Proof.
  unfold payloadOf. intros H. apply String_tail_inj in H.
  apply quote_inj in H as [_ H]. apply String_tail_inj in H.
  apply String_tail_inj in H.
  apply quote_inj in H as [_ H]. apply String_tail_inj in H.
  change "}}" with (String "}" "}") in H.
  now apply stringify_object_inj in H.
Qed.

(** ** Wildcard patterns *)

Lemma glob_cons (c : ascii) (p s : string) :
  IAM.glob (String c p) s =
  if Ascii.eqb c "*" then
    IAM.glob p s ||
    match s with
    | EmptyString => false
    | String _ s' => IAM.glob (String c p) s'
    end
  else if Ascii.eqb c "?" then
    match s with EmptyString => false | String _ s' => IAM.glob p s' end
  else
    match s with
    | EmptyString => false
    | String d s' => Ascii.eqb c d && IAM.glob p s'
    end.
Proof.
  destruct (Ascii.eqb c "*") eqn:E.
  - apply Ascii.eqb_eq in E. subst c. destruct s; reflexivity.
  - simpl. rewrite E. now destruct (Ascii.eqb c "?").
Qed.

(** A leading star may stand for nothing. *)
Lemma glob_star_empty (p s : string) :
  IAM.glob p s = true -> IAM.glob (String "*" p) s = true.
Proof. intros H. rewrite glob_cons. simpl. now rewrite H. Qed.

(** A leading star may stand for any run of characters. *)
Lemma glob_star_any (p x s : string) :
  IAM.glob p s = true -> IAM.glob (String "*" p) (x ++ s) = true.
Proof.
  intros H. induction x as [|c x IH].
  - now apply glob_star_empty.
  - rewrite glob_cons. cbn [Ascii.eqb Bool.eqb append]. rewrite IH.
    apply orb_true_r.
Qed.

(** A common head, wildcards in it or not, matches itself. *)
Lemma glob_app_prefix (pre p s : string) :
  IAM.glob p s = true -> IAM.glob (pre ++ p) (pre ++ s) = true.
Proof.
  intros H. induction pre as [|c pre IH]; [assumption|].
  cbn [append]. rewrite glob_cons.
  destruct (Ascii.eqb c "*") eqn:Es.
  - apply Ascii.eqb_eq in Es. subst c.
    rewrite (glob_star_empty _ _ IH). apply orb_true_r.
  - destruct (Ascii.eqb c "?"); [assumption|].
    now rewrite Ascii.eqb_refl, IH.
Qed.

Lemma glob_refl (p : string) : IAM.glob p p = true.
Proof.
  induction p as [|c p IH]; [reflexivity|].
  apply (glob_app_prefix (String c EmptyString) p p IH).
Qed.

(** The resource pattern of the invoking role covers every function of the
    stack's region and account whose name ends in [-ResInit<stackName>]. *)
Lemma invokeStatement_covers (stack : StackInfo) (head : string) :
  IAM.allows (invokeStatement stack) "lambda:InvokeFunction"
    (IAM.functionArn stack (head ++ "-ResInit" ++ stackName stack)) = true.
Proof.
  unfold IAM.allows, invokeStatement, IAM.functionArn.
  cbn [actions resources existsb]. rewrite glob_refl, !orb_false_r.
  cbn [andb].
  apply (glob_app_prefix "arn:aws:lambda:").
  apply glob_app_prefix.
  apply (glob_app_prefix ":").
  apply glob_app_prefix.
  apply (glob_app_prefix ":function:"
           (String "*" ("-ResInit" ++ stackName stack))).
  apply glob_star_any, glob_refl.
Qed.

(** ** The execution role *)

Lemma statements_fold_addToPolicy (ps : list PolicyStatement) (r : Role) :
  statements (fold_left addToPolicy ps r) = (statements r ++ ps)%list.
Proof.
  revert r. induction ps as [|p ps IH]; intros r; simpl.
  - now rewrite app_nil_r.
  - rewrite IH. simpl. now rewrite <- app_assoc.
Qed.

(** ** One convergence pass *)

Section Pass.

Variable target : Lifecycle.ActionTarget.
Variable cr : AwsCustomResource.
Variable call : AwsSdkCall.
Hypothesis no_create_hook : onCreate cr = None.
Hypothesis update_hook : onUpdate cr = Some call.

Lemma hook_is_update (s : Lifecycle.Trigger) :
  Lifecycle.createOrUpdateHook cr s = Some call.
Proof.
  unfold Lifecycle.createOrUpdateHook.
  rewrite no_create_hook, update_hook. now destruct (Lifecycle.recorded s).
Qed.

(** The candidate is the recorded identity: nothing happens. *)
Lemma converge_unchanged (s : Lifecycle.Trigger) :
  Lifecycle.recorded s = Some (physicalResourceId call) ->
  Lifecycle.converge target cr s = s.
Proof.
  intros R. unfold Lifecycle.converge. rewrite hook_is_update, R.
  cbn [Lifecycle.sameIdentity]. rewrite String.eqb_refl.
  now destruct (Lifecycle.phase s).
Qed.

(** The candidate is new: the target is invoked, once. *)
Lemma converge_invokes (s : Lifecycle.Trigger) :
  Lifecycle.phase s <> Lifecycle.Removed ->
  Lifecycle.recorded s <> Some (physicalResourceId call) ->
  Lifecycle.converge target cr s = Lifecycle.invoke target call s.
Proof.
  intros P R. unfold Lifecycle.converge. rewrite hook_is_update.
  assert (E : Lifecycle.sameIdentity (Lifecycle.recorded s)
                (physicalResourceId call) = false).
  { destruct (Lifecycle.recorded s) as [p|]; [|reflexivity]. simpl.
    apply String.eqb_neq. congruence. }
  rewrite E. destruct (Lifecycle.phase s); congruence.
Qed.

Lemma invoke_invocations (s : Lifecycle.Trigger) :
  Lifecycle.invocations (Lifecycle.invoke target call s)
  = (Lifecycle.invocations s ++ [Lifecycle.invocationOf call])%list.
Proof.
  unfold Lifecycle.invoke, Lifecycle.complete.
  now destruct (target _ _).
Qed.

Lemma invoke_success (s : Lifecycle.Trigger) (r : JSON.StringObject) :
  target (Lifecycle.invocations s) (Lifecycle.invocationOf call)
  = Lifecycle.Success r ->
  Lifecycle.invoke target call s
  = {| Lifecycle.phase := Lifecycle.Applied;
       Lifecycle.recorded := Some (physicalResourceId call);
       Lifecycle.result := Some r;
       Lifecycle.invocations :=
         (Lifecycle.invocations s ++ [Lifecycle.invocationOf call])%list |}.
Proof. unfold Lifecycle.invoke. now intros ->. Qed.

Lemma invoke_failure (s : Lifecycle.Trigger) :
  (forall r, target (Lifecycle.invocations s) (Lifecycle.invocationOf call)
             <> Lifecycle.Success r) ->
  Lifecycle.phase (Lifecycle.invoke target call s) = Lifecycle.Failed.
Proof.
  unfold Lifecycle.invoke. intros H.
  destruct (target _ _) as [r| |]; [now destruct (H r) | reflexivity..].
Qed.

End Pass.

(** ** The construct's custom resource *)

Lemma new_onCreate (stack : StackInfo) (id version : string)
    (props : CdkResourceInitializerProps) :
  onCreate (customResource (newCdkResourceInitializer stack id version props))
  = None.
Proof. reflexivity. Qed.

Lemma candidateOf_neq (stack : StackInfo) (id v1 v2 : string)
    (props1 props2 : CdkResourceInitializerProps) :
  v1 <> v2 \/ fingerprint (config props1) <> fingerprint (config props2) ->
  candidateOf (newCdkResourceInitializer stack id v1 props1)
  <> candidateOf (newCdkResourceInitializer stack id v2 props2).
Proof.
  intros D E. rewrite !candidateOf_new in E. injection E as E.
  apply physicalIdOf_inj in E as [Ev Ef].
  - destruct D as [D|D]; auto.
  - unfold fingerprint. now rewrite !payloadHashPrefix_length.
Qed.

(** A pass whose candidate differs from the recorded identity invokes the
    function the construct named, with the payload it serialised, once. *)
Lemma pass_with_new_identity (target : Lifecycle.ActionTarget)
    (stack : StackInfo) (id version : string)
    (props : CdkResourceInitializerProps) (s : Lifecycle.Trigger) :
  let i := newCdkResourceInitializer stack id version props in
  Lifecycle.phase s <> Lifecycle.Removed ->
  Lifecycle.recorded s <> candidateOf i ->
  exists call,
    onUpdate (customResource i) = Some call /\
    Lifecycle.invocationOf call = invocationWith stack id (config props) /\
    Some (physicalResourceId call) = candidateOf i /\
    Lifecycle.converge target (customResource i) s
    = Lifecycle.invoke target call s.
Proof.
  intros i P R.
  destruct (onUpdate (customResource i)) as [call|] eqn:U; [|discriminate U].
  exists call. split; [reflexivity|].
  injection U as <-. repeat split.
  now apply converge_invokes.
Qed.

(** A pass that has to invoke and gets an error or a timeout back ends in
    Failed. *)
Lemma failing_pass_is_failed (target : Lifecycle.ActionTarget)
    (stack : StackInfo) (id version : string)
    (props : CdkResourceInitializerProps) (s : Lifecycle.Trigger) :
  let i := newCdkResourceInitializer stack id version props in
  Lifecycle.phase s <> Lifecycle.Removed ->
  Lifecycle.recorded s <> candidateOf i ->
  (forall r, target (Lifecycle.invocations s)
               (invocationWith stack id (config props))
             <> Lifecycle.Success r) ->
  Lifecycle.phase (Lifecycle.converge target (customResource i) s)
  = Lifecycle.Failed.
Proof.
  intros i P R T.
  destruct (pass_with_new_identity target stack id version props s P R)
    as (call & U & I & C & E).
  fold i in E. rewrite E. apply invoke_failure. now rewrite I.
Qed.

Lemma failed_state_resolves_nothing (s : Lifecycle.Trigger)
    (f : ResponseField) :
  Lifecycle.phase s = Lifecycle.Failed ->
  Lifecycle.resolve s f = Lifecycle.ResolutionError.
Proof. unfold Lifecycle.resolve. now intros ->. Qed.

(** * The specified properties *)

(** C1.  Idempotence: from a state that has not recorded this Physical
    Identity, two convergence passes in succession with the same logical
    name, version and Configuration Payload, the first invocation
    succeeding, issue exactly one invocation of the Action Target: the first
    pass records the candidate identity, the candidate of the second pass
    equals it, and the second pass changes nothing. *)
Theorem two_passes_invoke_once (target : Lifecycle.ActionTarget)
    (stack : StackInfo) (id version : string)
    (props : CdkResourceInitializerProps) (s0 : Lifecycle.Trigger)
    (r : JSON.StringObject) :
  let i := newCdkResourceInitializer stack id version props in
  let pass := Lifecycle.CreateOrUpdate (customResource i) in
  Lifecycle.phase s0 <> Lifecycle.Removed ->
  Lifecycle.recorded s0 <> candidateOf i ->
  target (Lifecycle.invocations s0) (invocationWith stack id (config props))
  = Lifecycle.Success r ->
  Lifecycle.recorded (Lifecycle.run target [pass] s0) = candidateOf i /\
  Lifecycle.run target [pass; pass] s0 = Lifecycle.run target [pass] s0 /\
  Lifecycle.invocations (Lifecycle.run target [pass; pass] s0)
  = (Lifecycle.invocations s0
     ++ [invocationWith stack id (config props)])%list.
Proof.
  intros i pass P R T.
  destruct (pass_with_new_identity target stack id version props s0 P R)
    as (call & U & I & C & E).
  fold i in U, C, E.
  assert (S1 : Lifecycle.run target [pass] s0
               = Lifecycle.invoke target call s0) by exact E.
  assert (S2 : Lifecycle.run target [pass; pass] s0
               = Lifecycle.converge target (customResource i)
                   (Lifecycle.run target [pass] s0)) by reflexivity.
  rewrite <- I in T. rewrite (invoke_success target call s0 r T) in S1.
  rewrite S2, S1. rewrite <- C.
  rewrite (converge_unchanged target (customResource i) call
             (new_onCreate stack id version props) U) by reflexivity.
  rewrite I. auto.
Qed.

Lemma two_passes_invoke_once_witness :
  Lifecycle.invocations
    (Lifecycle.run alwaysOk
       [demoPass "1" (mkConfig "a" "b"); demoPass "1" (mkConfig "a" "b")]
       Lifecycle.initial)
  = [invocationWith demoStack "Initializer" (mkConfig "a" "b")].
Proof.
  apply (two_passes_invoke_once alwaysOk demoStack "Initializer" "1"
           (demoProps (mkConfig "a" "b")) Lifecycle.initial
           [("Payload", "done")]).
  - discriminate.
  - discriminate.
  - reflexivity.
Defined.

(** C2, as stated, fails in both directions.  The payload
    [{credsSecretName:"a", dbSecretName:"b"}] and the same properties set in
    the other order are structurally equal, yet serialise differently
    ([JSON.stringify] walks the properties in the order they were set) and
    get the fingerprints 1d759c and 445dc3; and the payload with
    [dbSecretName:"iky3l"] is structurally different, yet shares the
    fingerprint 1d759c, the first six digits of its digest. *)
Lemma fingerprint_not_iff_structural_equality :
  (sameProperties (mkConfig "a" "b")
     [("dbSecretName", "b"); ("credsSecretName", "a")] /\
   fingerprint (mkConfig "a" "b")
   <> fingerprint [("dbSecretName", "b"); ("credsSecretName", "a")]) /\
  (~ sameProperties (mkConfig "a" "b") (mkConfig "a" "iky3l") /\
   fingerprint (mkConfig "a" "b") = fingerprint (mkConfig "a" "iky3l")).
Proof.
  split; split.
  - intros k. unfold mkConfig. cbn [Lifecycle.lookup].
    destruct (String.eqb_spec "credsSecretName" k) as [E1|N1];
      destruct (String.eqb_spec "dbSecretName" k) as [E2|N2];
      try reflexivity.
    rewrite <- E2 in E1. discriminate E1.
  - unfold fingerprint.
    rewrite fingerprint_a_b, fingerprint_reordered. discriminate.
  - intros H. specialize (H "dbSecretName"). discriminate H.
  - unfold fingerprint. now rewrite fingerprint_a_b, fingerprint_a_iky3l.
Qed.

(** C2, amended.  Two Configuration Payloads serialise to the same text
    exactly when they hold the same properties with the same values in the
    same order, and payloads that are equal in that sense have equal
    fingerprints. *)
Theorem fingerprint_of_equal_payloads (c1 c2 : JSON.StringObject) :
  (payloadOf c1 = payloadOf c2 <-> c1 = c2) /\
  (c1 = c2 -> fingerprint c1 = fingerprint c2).
Proof.
  split; [split|].
  - apply payloadOf_inj.
  - now intros ->.
  - now intros ->.
Qed.

Lemma fingerprint_of_equal_payloads_witness :
  (payloadOf (mkConfig "a" "b") = payloadOf (mkConfig "a" "b")
   <-> mkConfig "a" "b" = mkConfig "a" "b") /\
  fingerprint (mkConfig "a" "b") = fingerprint (mkConfig "a" "b").
Proof.
  destruct (fingerprint_of_equal_payloads (mkConfig "a" "b") (mkConfig "a" "b"))
    as [I F].
  split; [exact I | apply F; reflexivity].
Defined.

(** C3, as stated, fails: changing [dbSecretName] from "b" to "iky3l"
    changes the payload but leaves the six-digit fingerprint, hence the
    Physical Identity the construct computes, as it was. *)
Lemma changed_field_same_fingerprint :
  payloadOf (mkConfig "a" "b") <> payloadOf (mkConfig "a" "iky3l") /\
  fingerprint (mkConfig "a" "b") = fingerprint (mkConfig "a" "iky3l") /\
  candidateOf (demoInitializer "1" (mkConfig "a" "b"))
  = candidateOf (demoInitializer "1" (mkConfig "a" "iky3l")).
Proof.
  assert (F : fingerprint (mkConfig "a" "b")
              = fingerprint (mkConfig "a" "iky3l")).
  { unfold fingerprint. now rewrite fingerprint_a_b, fingerprint_a_iky3l. }
  split; [|split].
  - intros E. apply payloadOf_inj in E. discriminate E.
  - exact F.
  - unfold demoInitializer. rewrite !candidateOf_new. cbn [config demoProps].
    now rewrite F.
Qed.

(** C3, amended.  Whenever a change to the Configuration Payload changes
    its six-digit Invocation Fingerprint, the computed Physical Identity
    changes with it, and the next convergence pass after the old identity
    was recorded issues exactly one new invocation, carrying the new
    payload. *)
Theorem changed_fingerprint_invokes_once (target : Lifecycle.ActionTarget)
    (stack : StackInfo) (id version : string)
    (props1 props2 : CdkResourceInitializerProps) (s : Lifecycle.Trigger) :
  let i1 := newCdkResourceInitializer stack id version props1 in
  let i2 := newCdkResourceInitializer stack id version props2 in
  fingerprint (config props1) <> fingerprint (config props2) ->
  Lifecycle.phase s <> Lifecycle.Removed ->
  Lifecycle.recorded s = candidateOf i1 ->
  candidateOf i2 <> candidateOf i1 /\
  Lifecycle.invocations (Lifecycle.converge target (customResource i2) s)
  = (Lifecycle.invocations s
     ++ [invocationWith stack id (config props2)])%list.
Proof.
  intros i1 i2 F P R.
  assert (N : candidateOf i1 <> candidateOf i2)
    by (apply candidateOf_neq; now right).
  split; [congruence|].
  destruct (pass_with_new_identity target stack id version props2 s P)
    as (call & U & I & C & E).
  { fold i2. congruence. }
  fold i2 in E. rewrite E, invoke_invocations. now rewrite I.
Qed.

Lemma changed_fingerprint_invokes_once_witness :
  let s1 := Lifecycle.run alwaysOk [demoPass "1" (mkConfig "a" "b")]
              Lifecycle.initial in
  candidateOf (demoInitializer "1" (mkConfig "a" "c"))
  <> candidateOf (demoInitializer "1" (mkConfig "a" "b")) /\
  Lifecycle.invocations
    (Lifecycle.converge alwaysOk
       (customResource (demoInitializer "1" (mkConfig "a" "c"))) s1)
  = (Lifecycle.invocations s1
     ++ [invocationWith demoStack "Initializer" (mkConfig "a" "c")])%list.
Proof.
  intros s1.
  apply (changed_fingerprint_invokes_once alwaysOk demoStack "Initializer" "1"
           (demoProps (mkConfig "a" "b")) (demoProps (mkConfig "a" "c")) s1).
  - cbn [config demoProps]. unfold fingerprint.
    rewrite fingerprint_a_b, fingerprint_a_c. discriminate.
  - vm_compute. discriminate.
  - vm_compute. reflexivity.
Defined.

(** C4.  The Physical Identity is
    [{logical-name}-AwsSdkCall-{version}{fingerprint-prefix}]; it is the same
    for the same logical name, version and fingerprint; it differs whenever
    the version or the fingerprint differs, and then the next pass after the
    old identity was recorded invokes the Action Target once more, also when
    the Configuration Payload is the very same. *)
Theorem physical_identity_tracks_version_and_fingerprint
    (target : Lifecycle.ActionTarget) (stack : StackInfo)
    (id v1 v2 : string) (props1 props2 : CdkResourceInitializerProps) :
  let i1 := newCdkResourceInitializer stack id v1 props1 in
  let i2 := newCdkResourceInitializer stack id v2 props2 in
  let f1 := fingerprint (config props1) in
  let f2 := fingerprint (config props2) in
  candidateOf i1 = Some (id ++ "-AwsSdkCall-" ++ v1 ++ f1) /\
  (v1 = v2 -> f1 = f2 -> candidateOf i1 = candidateOf i2) /\
  (v1 <> v2 \/ f1 <> f2 ->
   candidateOf i1 <> candidateOf i2 /\
   forall s,
     Lifecycle.phase s <> Lifecycle.Removed ->
     Lifecycle.recorded s = candidateOf i1 ->
     Lifecycle.invocations (Lifecycle.converge target (customResource i2) s)
     = (Lifecycle.invocations s
        ++ [invocationWith stack id (config props2)])%list).
Proof.
  intros i1 i2 f1 f2. split; [reflexivity|]. split.
  - intros Ev Ef. unfold i1, i2. rewrite !candidateOf_new.
    fold f1 f2. now rewrite Ev, Ef.
  - intros D.
    assert (N : candidateOf i1 <> candidateOf i2)
      by now apply candidateOf_neq.
    split; [exact N|]. intros s P R.
    destruct (pass_with_new_identity target stack id v2 props2 s P)
      as (call & U & I & C & E).
    { fold i2. congruence. }
    fold i2 in E. rewrite E, invoke_invocations. now rewrite I.
Qed.

Lemma physical_identity_tracks_version_and_fingerprint_witness :
  let p := demoProps (mkConfig "a" "b") in
  let i1 := newCdkResourceInitializer demoStack "Initializer" "1" p in
  let i2 := newCdkResourceInitializer demoStack "Initializer" "2" p in
  let s1 := Lifecycle.invoke alwaysOk
              {| service := "Lambda"; action := "invoke";
                 parameters :=
                   {| FunctionName := "Initializer-ResInitExampleEcsStack";
                      Payload := payloadOf (mkConfig "a" "b") |};
                 physicalResourceId := "Initializer-AwsSdkCall-11d759c" |}
              Lifecycle.initial in
  candidateOf i1 = candidateOf i1 /\
  candidateOf i1 <> candidateOf i2 /\
  Lifecycle.invocations (Lifecycle.converge alwaysOk (customResource i2) s1)
  = (Lifecycle.invocations s1
     ++ [invocationWith demoStack "Initializer" (mkConfig "a" "b")])%list.
Proof.
  intros p i1 i2 s1.
  destruct (physical_identity_tracks_version_and_fingerprint alwaysOk
              demoStack "Initializer" "1" "1" p p) as (_ & Same & _).
  destruct (physical_identity_tracks_version_and_fingerprint alwaysOk
              demoStack "Initializer" "1" "2" p p) as (_ & _ & Diff).
  destruct Diff as [N Again]; [left; discriminate|].
  split; [apply Same; reflexivity|]. split; [exact N|].
  apply Again; [discriminate|]. vm_compute. reflexivity.
Defined.

(** C5.  The construct declares a hook for create and update only, and a
    delete event on the resource issues no invocation of the Action Target,
    whatever the state it arrives in; the resource ends Removed, and no later
    pass invokes anything either. *)
Theorem delete_never_invokes (target : Lifecycle.ActionTarget)
    (stack : StackInfo) (id version : string)
    (props : CdkResourceInitializerProps) (s : Lifecycle.Trigger) :
  let cr := customResource (newCdkResourceInitializer stack id version props) in
  onDelete cr = None /\
  (exists call, onUpdate cr = Some call) /\
  Lifecycle.invocations (Lifecycle.step target s (Lifecycle.Delete cr))
  = Lifecycle.invocations s /\
  Lifecycle.phase (Lifecycle.step target s (Lifecycle.Delete cr))
  = Lifecycle.Removed /\
  Lifecycle.invocations
    (Lifecycle.run target [Lifecycle.Delete cr; Lifecycle.CreateOrUpdate cr] s)
  = Lifecycle.invocations s.
Proof.
  intros cr. split; [reflexivity|]. split; [eexists; reflexivity|].
  split; [reflexivity|]. split; reflexivity.
Qed.

(** C6, as stated, fails: the one statement of the invoking role does not
    name the target function but the pattern
    [function:*-ResInit<stackName>], which also allows invoking another
    function of the account whose name ends that way. *)
Lemma invoking_role_reaches_other_functions :
  let i := demoInitializer "1" (mkConfig "a" "b") in
  let targetArn := IAM.functionArn demoStack (functionName (function i)) in
  let otherArn := IAM.functionArn demoStack "Other-ResInitExampleEcsStack" in
  otherArn <> targetArn /\
  exists st,
    In st (statements (crRole (customResource i))) /\
    resources st <> [targetArn] /\
    IAM.allows st "lambda:InvokeFunction" otherArn = true.
Proof.
  intros i targetArn otherArn. split; [discriminate|].
  exists (invokeStatement demoStack). split; [now left|].
  split; [discriminate|]. vm_compute. reflexivity.
Qed.

(** C6, amended.  The construct adds exactly one statement to the invoking
    role; it grants [lambda:InvokeFunction] on the pattern
    [arn:aws:lambda:<region>:<account>:function:*-ResInit<stackName>], which
    covers the Action Target and every other function of that region and
    account whose name ends in [-ResInit<stackName>]; the custom resource's
    own policy is declared over any resource. *)
Theorem invoking_role_grants_name_pattern (stack : StackInfo)
    (id version : string) (props : CdkResourceInitializerProps)
    (head : string) :
  let i := newCdkResourceInitializer stack id version props in
  statements (crRole (customResource i))
  = [ {| actions := ["lambda:InvokeFunction"];
         resources := ["arn:aws:lambda:" ++ region stack ++ ":"
                       ++ account stack ++ ":function:*-ResInit"
                       ++ stackName stack] |} ] /\
  IAM.allows (invokeStatement stack) "lambda:InvokeFunction"
    (IAM.functionArn stack (functionName (function i))) = true /\
  IAM.allows (invokeStatement stack) "lambda:InvokeFunction"
    (IAM.functionArn stack (head ++ "-ResInit" ++ stackName stack)) = true /\
  policyResources (customResource i) = ["*"].
Proof.
  intros i. split; [reflexivity|]. split; [apply invokeStatement_covers|].
  split; [apply invokeStatement_covers | reflexivity].
Qed.

(** C7.  The statements of the Action Target's execution role are the
    logging grant, then the network-interface grant, then the caller's
    grants in the order given, and nothing else. *)
Theorem execution_role_statements (stack : StackInfo) (id version : string)
    (props : CdkResourceInitializerProps) :
  statements (fnRole (function
                (newCdkResourceInitializer stack id version props)))
  = {| actions := ["logs:CreateLogGroup"; "logs:CreateLogStream";
                   "logs:PutLogEvents"];
       resources := ["arn:aws:logs:*:*:*"] |}
    :: {| actions := ["ec2:CreateNetworkInterface";
                      "ec2:DescribeNetworkInterfaces";
                      "ec2:DeleteNetworkInterface"];
          resources := ["*"] |}
    :: policies props.
Proof.
  cbn [function fnRole newCdkResourceInitializer]. unfold executionRole.
  now rewrite statements_fold_addToPolicy.
Qed.

(** C8.  In the Failed state no attempt to resolve a published field yields
    a value; and a pass whose invocation comes back with an error or a
    timeout ends in Failed, where the field of the construct does not
    resolve although the Invocation Result of the earlier identity is still
    retained. *)
Theorem failed_never_resolves (target : Lifecycle.ActionTarget)
    (stack : StackInfo) (id version : string)
    (props : CdkResourceInitializerProps) (s t : Lifecycle.Trigger)
    (f : ResponseField) :
  let i := newCdkResourceInitializer stack id version props in
  let s' := Lifecycle.converge target (customResource i) s in
  (Lifecycle.phase t = Lifecycle.Failed ->
   Lifecycle.resolve t f = Lifecycle.ResolutionError) /\
  (Lifecycle.phase s <> Lifecycle.Removed ->
   Lifecycle.recorded s <> candidateOf i ->
   target (Lifecycle.invocations s) (invocationWith stack id (config props))
   = Lifecycle.InvocationError \/
   target (Lifecycle.invocations s) (invocationWith stack id (config props))
   = Lifecycle.TimeoutError ->
   Lifecycle.phase s' = Lifecycle.Failed /\
   Lifecycle.result s' = Lifecycle.result s /\
   Lifecycle.resolve s' (response i) = Lifecycle.ResolutionError).
Proof.
  intros i s'. split.
  - apply failed_state_resolves_nothing.
  - intros P R T.
    assert (F : Lifecycle.phase s' = Lifecycle.Failed).
    { apply failing_pass_is_failed; try assumption.
      intros r E. destruct T as [T|T]; rewrite T in E; discriminate E. }
    split; [exact F|]. split.
    + destruct (pass_with_new_identity target stack id version props s P R)
        as (call & U & I & C & E).
      unfold s'. fold i in E. rewrite E. unfold Lifecycle.invoke.
      rewrite I. now destruct T as [-> | ->].
    + now apply failed_state_resolves_nothing.
Qed.

Lemma failed_never_resolves_witness :
  let i1 := demoInitializer "1" (mkConfig "a" "b") in
  let i2 := demoInitializer "1" (mkConfig "a" "c") in
  let s1 := Lifecycle.run alwaysOk [demoPass "1" (mkConfig "a" "b")]
              Lifecycle.initial in
  let s2 := Lifecycle.converge alwaysFails (customResource i2) s1 in
  Lifecycle.resolve s1 (response i1) = Lifecycle.Resolved "done" /\
  Lifecycle.phase s2 = Lifecycle.Failed /\
  Lifecycle.result s2 = Some [("Payload", "done")] /\
  Lifecycle.resolve s2 (response i2) = Lifecycle.ResolutionError /\
  Lifecycle.resolve s2 {| fieldOf := "Other" |} = Lifecycle.ResolutionError.
Proof.
  intros i1 i2 s1 s2.
  destruct (failed_never_resolves alwaysFails demoStack "Initializer" "1"
              (demoProps (mkConfig "a" "c")) s1 s2 {| fieldOf := "Other" |})
    as [Any Pass].
  destruct Pass as (F & Kept & Refused).
  - vm_compute. discriminate.
  - vm_compute. discriminate.
  - left. reflexivity.
  - split; [vm_compute; reflexivity|]. split; [exact F|].
    split; [exact (eq_trans Kept eq_refl)|].
    split; [exact Refused | exact (Any F)].
Defined.

(** C9.  When the database cluster comes without its admin secret,
    [createServerlessRDS] throws the ReferenceError right after the cluster
    was created: no initializer has been created, so the stack declares
    nothing that could invoke the Action Target. *)
Theorem missing_admin_secret_throws (target : Lifecycle.ActionTarget)
    (stack : StackInfo) (lib : StackBuild.Library) (vpc : Vpc)
    (st : StackBuild.StackState) (s : Lifecycle.Trigger) :
  StackBuild.secret (StackBuild.madeCluster lib) = None ->
  StackBuild.initializers st = [] ->
  let out := StackBuild.createServerlessRDS stack lib vpc st in
  fst out
  = StackBuild.Throw (StackBuild.ReferenceError "rdsAdminSecret is undefined")
  /\ StackBuild.children (snd out)
     = (StackBuild.children st ++ ["default"; "Database"])%list
  /\ StackBuild.initializers (snd out) = []
  /\ Lifecycle.run target (StackBuild.declaredEvents (snd out)) s = s.
Proof.
  intros N E out. subst out.
  unfold StackBuild.createServerlessRDS, StackBuild.bind, StackBuild.addChild,
    StackBuild.throw.
  rewrite N. cbn [fst snd StackBuild.children StackBuild.initializers].
  unfold StackBuild.declaredEvents.
  cbn [StackBuild.initializers]. rewrite E, <- app_assoc. auto.
Qed.

Lemma missing_admin_secret_throws_witness :
  let lib := {| StackBuild.madeCluster :=
                  {| StackBuild.clusterArn := "arn:aws:rds:db";
                     StackBuild.secret := None |};
                StackBuild.madeAppSecret :=
                  {| StackBuild.secretName := "app";
                     StackBuild.secretArn := "arn:aws:secretsmanager:app" |};
                StackBuild.madeVersion := "1" |} in
  let out := StackBuild.createServerlessRDS demoStack lib {| vpcId := "VPC" |}
               StackBuild.emptyStack in
  fst out
  = StackBuild.Throw (StackBuild.ReferenceError "rdsAdminSecret is undefined")
  /\ StackBuild.children (snd out) = ["default"; "Database"]
  /\ StackBuild.initializers (snd out) = []
  /\ Lifecycle.run alwaysOk (StackBuild.declaredEvents (snd out))
       Lifecycle.initial = Lifecycle.initial.
Proof.
  intros lib out.
  apply (missing_admin_secret_throws alwaysOk demoStack lib {| vpcId := "VPC" |}
           StackBuild.emptyStack Lifecycle.initial); reflexivity.
Defined.

(** C10.  The fingerprint prefix of every payload is six lowercase
    hexadecimal characters, so under one logical name two different
    (version, fingerprint) pairs never give the same Physical Identity. *)
Theorem physical_identity_decomposes (id v1 v2 payload1 payload2 : string) :
  (v1, payloadHashPrefix payload1) <> (v2, payloadHashPrefix payload2) ->
  String.length (payloadHashPrefix payload1) = 6%nat /\
  all_chars is_lower_hex (payloadHashPrefix payload1) = true /\
  physicalIdOf id v1 (payloadHashPrefix payload1)
  <> physicalIdOf id v2 (payloadHashPrefix payload2).
Proof.
  intros D. split; [apply payloadHashPrefix_length|].
  split; [apply payloadHashPrefix_lower|].
  intros E. apply physicalIdOf_inj in E as [Ev Ef].
  - apply D. now rewrite Ev, Ef.
  - now rewrite !payloadHashPrefix_length.
Qed.

Lemma physical_identity_decomposes_witness :
  String.length (payloadHashPrefix (payloadOf (mkConfig "a" "b"))) = 6%nat /\
  all_chars is_lower_hex (payloadHashPrefix (payloadOf (mkConfig "a" "b")))
  = true /\
  physicalIdOf "Initializer" "1" (payloadHashPrefix (payloadOf (mkConfig "a" "b")))
  <> physicalIdOf "Initializer" "11"
       (payloadHashPrefix (payloadOf (mkConfig "a" "c"))).
Proof.
  apply (physical_identity_decomposes "Initializer" "1" "11"
           (payloadOf (mkConfig "a" "b")) (payloadOf (mkConfig "a" "c"))).
  intros E. apply (f_equal fst) in E. discriminate E.
Defined.

(** * Further properties of the code *)

(** ** Patterns without wildcards *)


Lemma string_app_assoc (s t u : string) : (s ++ t) ++ u = s ++ (t ++ u).
Proof. induction s as [|c s IH]; simpl; [reflexivity | now rewrite IH]. Qed.





(** ** What the serialisation writes for plain text *)

Lemma quote_body_plain (s r : string) :
  plainText s = true -> JSON.quote_body s r = s ++ r.
Proof.
  induction s as [|c s IH]; intros P; [reflexivity|].
  unfold plainText in P. cbn [all_chars] in P.
  apply andb_true_iff in P as [Pc P].
  cbn [JSON.quote_body append]. rewrite (IH P).
  apply andb_true_iff in Pc as [Pc P92]. apply andb_true_iff in Pc as [P32 P34].
  apply negb_true_iff in P92, P34. apply Z.leb_le in P32.
  apply Z.eqb_neq in P92, P34.
  unfold JSON.quote_char.
  repeat match goal with
         | |- context [?a =? ?b] =>
             destruct (Z.eqb_spec a b); [lia|]
         end.
  destruct (Z.ltb_spec (byte_of_ascii c) 32); [lia | reflexivity].
Qed.

(** ** Suffixes of construct ids *)

Lemma app_suffix_cases (s1 s2 t1 t2 : string) :
  s1 ++ t1 = s2 ++ t2 ->
  (String.length t1 <= String.length t2)%nat ->
  exists u, t2 = u ++ t1 /\ s1 = s2 ++ u.
Proof.
  revert s2. induction s1 as [|c s1 IH]; intros s2 E L.
  - destruct s2 as [|d s2].
    + exists "". simpl in E. now subst.
    + exfalso. simpl in E. rewrite E in L. simpl in L.
      rewrite string_length_app in L. lia.
  - destruct s2 as [|d s2].
    + exists (String c s1). now simpl in *.
    + simpl in E. injection E as -> E.
      destruct (IH s2 E L) as (u & -> & ->). now exists u.
Qed.

Lemma app_cancel_r (s1 s2 t : string) : s1 ++ t = s2 ++ t -> s1 = s2.
Proof. intros E. now apply app_split_by_length in E. Qed.

(** ** The initializer construct *)

(** X1.  The SDK call of the custom resource (function name, payload and
    Physical Identity) is fixed by the logical name, the stack name, the
    version and the configuration: the VPC, the caller's policies, the
    region and the account never change it. *)
Theorem sdk_call_ignores_policies_and_network (stack1 stack2 : StackInfo)
    (id version : string) (props1 props2 : CdkResourceInitializerProps) :
  stackName stack1 = stackName stack2 ->
  config props1 = config props2 ->
  onUpdate (customResource (newCdkResourceInitializer stack1 id version props1))
  = onUpdate
      (customResource (newCdkResourceInitializer stack2 id version props2)).
Proof.
  intros Hs Hc. unfold newCdkResourceInitializer.
  cbn [customResource onUpdate functionName currentVersion].
  now rewrite Hs, Hc.
Qed.

Lemma sdk_call_ignores_policies_and_network_witness :
  onUpdate (customResource
              (newCdkResourceInitializer demoStack "Initializer" "1"
                 (demoProps (mkConfig "a" "b"))))
  = onUpdate (customResource
                (newCdkResourceInitializer
                   {| stackName := "ExampleEcsStack"; region := "us-east-1";
                      account := "210987654321" |}
                   "Initializer" "1"
                   {| vpc := {| vpcId := "Other" |};
                      policies := [logPolicy];
                      config := mkConfig "a" "b" |})).
Proof.
  apply sdk_call_ignores_policies_and_network; reflexivity.
Defined.



(** X3.  For secret names that need no escaping (no control character,
    double quote or backslash) the payload is the text
    [{"params":{"config":{"credsSecretName":"<creds>","dbSecretName":"<db>"}}}]
    with the two names written as they are. *)
Theorem payload_of_plain_names (creds db : string) :
  plainText creds = true ->
  plainText db = true ->
  let q := String JSON.dquote "" in
  payloadOf (mkConfig creds db)
  = "{" ++ q ++ "params" ++ q ++ ":{" ++ q ++ "config" ++ q ++ ":{"
    ++ q ++ "credsSecretName" ++ q ++ ":" ++ q ++ creds ++ q ++ ","
    ++ q ++ "dbSecretName" ++ q ++ ":" ++ q ++ db ++ q ++ "}}}".
Proof.
  intros Pc Pd q. unfold payloadOf, JSON.stringify_object, mkConfig.
  cbn [JSON.members]. unfold JSON.member, JSON.quote. cbn [fst snd].
  rewrite (quote_body_plain creds _ Pc), (quote_body_plain db _ Pd).
  reflexivity.
Qed.

Lemma payload_of_plain_names_witness :
  let q := String JSON.dquote "" in
  payloadOf (mkConfig "admin-secret" "app/secret")
  = "{" ++ q ++ "params" ++ q ++ ":{" ++ q ++ "config" ++ q ++ ":{"
    ++ q ++ "credsSecretName" ++ q ++ ":" ++ q ++ "admin-secret" ++ q ++ ","
    ++ q ++ "dbSecretName" ++ q ++ ":" ++ q ++ "app/secret" ++ q ++ "}}}".
Proof.
  apply (payload_of_plain_names "admin-secret" "app/secret"); reflexivity.
Defined.

(** X4.  Two initializers of one stack with different logical names never
    share a function name or a security group name, and with the same
    version never a Physical Identity, whatever their configurations. *)
Theorem distinct_ids_distinct_names (stack : StackInfo)
    (id1 id2 version : string) (props1 props2 : CdkResourceInitializerProps) :
  id1 <> id2 ->
  let i1 := newCdkResourceInitializer stack id1 version props1 in
  let i2 := newCdkResourceInitializer stack id2 version props2 in
  functionName (function i1) <> functionName (function i2) /\
  securityGroupName (functionSG i1) <> securityGroupName (functionSG i2) /\
  candidateOf i1 <> candidateOf i2.
Proof.
  intros D i1 i2. split; [|split]; intros E; apply D.
  - cbn in E. now apply app_cancel_r in E.
  - cbn in E. now apply app_cancel_r in E.
  - unfold i1, i2 in E. rewrite !candidateOf_new in E. injection E as E.
    unfold physicalIdOf in E.
    apply app_split_by_length in E; [tauto|].
    rewrite !string_length_app. unfold fingerprint.
    now rewrite !payloadHashPrefix_length.
Qed.

Lemma distinct_ids_distinct_names_witness :
  candidateOf (newCdkResourceInitializer demoStack "InitA" "1"
                 (demoProps (mkConfig "a" "b")))
  <> candidateOf (newCdkResourceInitializer demoStack "InitB" "1"
                    (demoProps (mkConfig "a" "b"))).
Proof.
  apply (distinct_ids_distinct_names demoStack "InitA" "InitB" "1").
  discriminate.
Defined.

(** ** [createServerlessRDS] when the cluster has its admin secret *)



(** X6.  The initializer [createServerlessRDS] creates runs under a role
    with the two baseline grants followed by: read and write of the
    application secret, read of the admin secret, and [rds:*] on the
    cluster; and its SDK call carries the admin secret's name as
    [credsSecretName] and the application secret's name as [dbSecretName]. *)
Theorem createServerlessRDS_initializer (stack : StackInfo)
    (lib : StackBuild.Library) (vpc : Vpc) (st : StackBuild.StackState)
    (adm : StackBuild.Secret) :
  StackBuild.secret (StackBuild.madeCluster lib) = Some adm ->
  let out := StackBuild.createServerlessRDS stack lib vpc st in
  exists i call,
    StackBuild.initializers (snd out)
    = (StackBuild.initializers st ++ [i])%list /\
    statements (fnRole (function i))
    = [ logPolicy; vpcAccessPolicyStatement;
        {| actions := ["secretsmanager:GetSecretValue";
                       "secretsmanager:PutSecretValue"];
           resources :=
             [StackBuild.secretArn (StackBuild.madeAppSecret lib)] |};
        {| actions := ["secretsmanager:GetSecretValue"];
           resources := [StackBuild.secretArn adm] |};
        {| actions := ["rds:*"];
           resources :=
             [StackBuild.clusterArn (StackBuild.madeCluster lib)] |} ] /\
    onUpdate (customResource i) = Some call /\
    FunctionName (parameters call) = functionName (function i) /\
    Payload (parameters call)
    = payloadOf [("credsSecretName", StackBuild.secretName adm);
                 ("dbSecretName",
                  StackBuild.secretName (StackBuild.madeAppSecret lib))].
Proof.
  intros H out. subst out. unfold StackBuild.createServerlessRDS.
  rewrite H. eexists. eexists.
  split; [reflexivity|]. split; [reflexivity|].
  split; [reflexivity|]. split; reflexivity.
Qed.

Lemma createServerlessRDS_initializer_witness :
  let lib := {| StackBuild.madeCluster :=
                  {| StackBuild.clusterArn := "arn:aws:rds:db";
                     StackBuild.secret :=
                       Some {| StackBuild.secretName := "admin";
                               StackBuild.secretArn := "arn:admin" |} |};
                StackBuild.madeAppSecret :=
                  {| StackBuild.secretName := "app";
                     StackBuild.secretArn := "arn:app" |};
                StackBuild.madeVersion := "1" |} in
  let out := StackBuild.createServerlessRDS demoStack lib {| vpcId := "VPC" |}
               StackBuild.emptyStack in
  exists i call,
    StackBuild.initializers (snd out) = [i] /\
    onUpdate (customResource i) = Some call /\
    Payload (parameters call) = payloadOf (mkConfig "admin" "app").
Proof.
  intros lib out.
  destruct (createServerlessRDS_initializer demoStack lib {| vpcId := "VPC" |}
              StackBuild.emptyStack
              {| StackBuild.secretName := "admin";
                 StackBuild.secretArn := "arn:admin" |} eq_refl)
    as (i & call & I & _ & U & _ & P).
  exists i, call. split; [exact I|]. split; [exact U | exact P].
Defined.

(** ** [runFargateContainer] *)

(** X7.  Called before [rdsServerlessCluster] is assigned,
    [runFargateContainer] throws a TypeError from [createECSTaskRole]: by
    then only the task role construct has been created; no ingress rule and
    no service is added. *)
Theorem runFargateContainer_before_rds (name : string) (vpc : Vpc)
    (cluster : FargateStack.Cluster) (containerDef : FargateStack.ContainerDef)
    (st : FargateStack.State) :
  StackBuild.rdsServerlessCluster (FargateStack.core st) = None ->
  let out := FargateStack.runFargateContainer name vpc cluster containerDef st in
  (exists msg, fst out = StackBuild.Throw (StackBuild.TypeError msg)) /\
  StackBuild.children (FargateStack.core (snd out))
  = (StackBuild.children (FargateStack.core st)
     ++ [(name ++ "-taskRole")%string])%list
  /\ StackBuild.ingressRules (FargateStack.core (snd out))
     = StackBuild.ingressRules (FargateStack.core st)
  /\ FargateStack.services (snd out) = FargateStack.services st.
Proof.
  intros H out. subst out.
  unfold FargateStack.runFargateContainer, FargateStack.createECSTaskRole,
    FargateStack.bind, FargateStack.addChild, FargateStack.onCore,
    FargateStack.readRdsServerlessCluster.
  cbn [fst snd StackBuild.addChild FargateStack.core
       StackBuild.rdsServerlessCluster].
  rewrite H. split; [eexists; reflexivity|]. split; [reflexivity|].
  split; reflexivity.
Qed.

Lemma runFargateContainer_before_rds_witness :
  let out := FargateStack.runFargateContainer "koa-test" {| vpcId := "VPC" |}
               demoCluster demoContainerDef FargateStack.emptyState in
  StackBuild.children (FargateStack.core (snd out)) = ["koa-test-taskRole"] /\
  FargateStack.services (snd out) = [].
Proof.
  intros out.
  destruct (runFargateContainer_before_rds "koa-test" {| vpcId := "VPC" |}
              demoCluster demoContainerDef FargateStack.emptyState eq_refl)
    as (_ & C & _ & S).
  split; [exact C | exact S].
Defined.

(** X8.  Called with [rdsServerlessCluster] assigned but before [ECSCluster]
    is, [runFargateContainer] throws a TypeError when it reads the key: the
    task role and the task definition have been created, but no security
    group, ingress rule or service. *)
Theorem runFargateContainer_before_cluster (name : string) (vpc : Vpc)
    (cluster : FargateStack.Cluster) (containerDef : FargateStack.ContainerDef)
    (st : FargateStack.State) (rds : StackBuild.RdsServerlessCluster) :
  StackBuild.rdsServerlessCluster (FargateStack.core st) = Some rds ->
  FargateStack.ECSCluster st = None ->
  let out := FargateStack.runFargateContainer name vpc cluster containerDef st in
  (exists msg, fst out = StackBuild.Throw (StackBuild.TypeError msg)) /\
  StackBuild.children (FargateStack.core (snd out))
  = (StackBuild.children (FargateStack.core st)
     ++ [(name ++ "-taskRole")%string; (name ++ "-TaskDef")%string])%list
  /\ StackBuild.ingressRules (FargateStack.core (snd out))
     = StackBuild.ingressRules (FargateStack.core st)
  /\ FargateStack.services (snd out) = FargateStack.services st.
Proof.
  intros H E out. subst out.
  unfold FargateStack.runFargateContainer, FargateStack.createECSTaskRole,
    FargateStack.bind, FargateStack.addChild, FargateStack.onCore,
    FargateStack.readRdsServerlessCluster, FargateStack.readECSCluster,
    FargateStack.ret.
  cbn [fst snd StackBuild.addChild FargateStack.core
       StackBuild.rdsServerlessCluster FargateStack.ECSCluster].
  rewrite H.
  cbn [fst snd StackBuild.addChild FargateStack.core
       StackBuild.rdsServerlessCluster FargateStack.ECSCluster].
  rewrite E. split; [eexists; reflexivity|]. split.
  - cbn. now rewrite <- app_assoc.
  - split; reflexivity.
Qed.

Lemma runFargateContainer_before_cluster_witness :
  let out := FargateStack.runFargateContainer "koa-test" {| vpcId := "VPC" |}
               demoCluster demoContainerDef demoAfterRds in
  FargateStack.services (snd out) = [] /\
  StackBuild.ingressRules (FargateStack.core (snd out))
  = StackBuild.ingressRules (FargateStack.core demoAfterRds).
Proof.
  intros out.
  destruct (runFargateContainer_before_cluster "koa-test" {| vpcId := "VPC" |}
              demoCluster demoContainerDef demoAfterRds
              {| StackBuild.rdsPolicyStatement :=
                   {| actions := ["rds:*"]; resources := ["arn:aws:rds:db"] |};
                 StackBuild.cluster :=
                   StackBuild.madeCluster (demoRdsLibrary (Some demoAdminSecret));
                 StackBuild.appSecret := demoAppSecret |}
              eq_refl eq_refl)
    as (_ & _ & I & S).
  split; [exact S | exact I].
Defined.



(** ** The constructor of the stack *)

(** Runs the construction code, leaving the initializer as it is. *)
Ltac run_stack :=
  cbv beta iota zeta delta
    [FargateStack.newExampleFargateStack FargateStack.bind FargateStack.ret
     FargateStack.addChild FargateStack.onCore FargateStack.createECSCluster
     FargateStack.createServerlessRDS FargateStack.setECSCluster
     FargateStack.readECSCluster FargateStack.readRdsServerlessCluster
     FargateStack.runFargateContainer FargateStack.createECSTaskRole
     FargateStack.addIngreesRuleToRDS FargateStack.addService
     FargateStack.addOutput FargateStack.addLoadBalancer
     FargateStack.emptyState StackBuild.emptyStack
     StackBuild.createServerlessRDS StackBuild.bind StackBuild.addChild
     StackBuild.throw StackBuild.setRdsServerlessCluster
     StackBuild.newInitializer StackBuild.addIngreesRuleToRDS fst snd
     FargateStack.core FargateStack.ECSCluster FargateStack.services
     FargateStack.loadBalancers FargateStack.outputs
     FargateStack.rdsLibrary FargateStack.madeVpc FargateStack.madeKeyArn
     FargateStack.madeDnsName
     StackBuild.children StackBuild.rdsServerlessCluster
     StackBuild.initializers StackBuild.ingressRules
     StackBuild.madeCluster StackBuild.madeAppSecret StackBuild.madeVersion
     StackBuild.secret StackBuild.clusterArn].



(** X11.  The constructor never throws a TypeError: every field is assigned
    before it is read.  It throws only when the cluster has no admin secret,
    and then the ReferenceError of [createServerlessRDS]: the VPC, the key,
    the bucket, the ECS cluster, the parameter group and the database cluster
    exist, but no repository, initializer, service, load balancer or
    output. *)
Theorem newExampleFargateStack_failure (stack : StackInfo)
    (lib : FargateStack.Library) :
  let out := FargateStack.newExampleFargateStack stack lib
               FargateStack.emptyState in
  (forall msg, fst out <> StackBuild.Throw (StackBuild.TypeError msg)) /\
  (fst out <> StackBuild.Normal tt ->
   StackBuild.secret (StackBuild.madeCluster (FargateStack.rdsLibrary lib))
   = None /\
   fst out
   = StackBuild.Throw (StackBuild.ReferenceError "rdsAdminSecret is undefined")
   /\ StackBuild.children (FargateStack.core (snd out))
      = ["VPC"; "ECSExecKmsKey"; "ECSExecBucket"; "Cluster"; "default";
         "Database"]
   /\ StackBuild.initializers (FargateStack.core (snd out)) = []
   /\ StackBuild.ingressRules (FargateStack.core (snd out)) = []
   /\ FargateStack.services (snd out) = []
   /\ FargateStack.loadBalancers (snd out) = []
   /\ FargateStack.outputs (snd out) = []).
Proof.
  destruct lib as [[[carn [adm|]] appSecret ver] v k d]; intros out; subst out;
    run_stack.
  - split; [intros msg; discriminate|].
    intros N. exfalso. apply N. reflexivity.
  - split; [intros msg; discriminate|].
    intros _. repeat (split; [reflexivity|]). reflexivity.
Qed.

Lemma newExampleFargateStack_failure_witness :
  let out := FargateStack.newExampleFargateStack demoStack (demoLibrary None)
               FargateStack.emptyState in
  fst out
  = StackBuild.Throw (StackBuild.ReferenceError "rdsAdminSecret is undefined")
  /\ FargateStack.services (snd out) = [].
Proof.
  intros out.
  destruct (newExampleFargateStack_failure demoStack (demoLibrary None))
    as [_ F].
  destruct F as (_ & T & _ & _ & _ & S & _); [discriminate|].
  split; [exact T | exact S].
Defined.

(** ** Construct ids of services *)

(** Two ids built from a name and one of the suffixes of
    [runFargateContainer] coincide only for the same name and suffix. *)
Ltac suffix_clash E :=
  let u := fresh "u" in
  let Eu := fresh "Eu" in
  let L := fresh "L" in
  first
    [ apply app_suffix_cases in E as (u & Eu & _); [|simpl; lia]
    | symmetry in E; apply app_suffix_cases in E as (u & Eu & _);
      [|simpl; lia] ];
  pose proof (f_equal String.length Eu) as L;
  rewrite string_length_app in L; simpl in L;
  do 7 (try destruct u as [|? u]; simpl in L; try lia);
  simpl in Eu; congruence.

(** X12.  The construct ids [runFargateContainer] creates for one name are
    pairwise different, and the ids of two different names never clash. *)
Theorem serviceIds_never_clash (n1 n2 : string) :
  n1 <> n2 ->
  NoDup (FargateStack.serviceIds n1 ++ FargateStack.serviceIds n2)%list.
Proof.
  intros D. unfold FargateStack.serviceIds. cbn [app].
  repeat (apply NoDup_cons;
          [ cbn [In]; intros H;
            repeat (destruct H as [H|H];
                    [ try (apply app_cancel_r in H; congruence);
                      try suffix_clash H |]);
            try contradiction
          | ]).
  apply NoDup_nil.
Qed.

Lemma serviceIds_never_clash_witness :
  NoDup (FargateStack.serviceIds "koa-test"
         ++ FargateStack.serviceIds "koa")%list.
Proof. apply serviceIds_never_clash. discriminate. Defined.

(** ** What the methods of the stack never undo *)

Ltac grows_by ids rules added :=
  split; [exists ids | split; [exists rules | exists added]];
  cbn; rewrite <- ?app_assoc, ?app_nil_r;
  repeat split; auto; repeat constructor.

(** X13.  Whatever the state and whether they return or throw, the methods
    of the stack only add: constructs, services and ingress rules present
    before are still there afterwards, in place, and a call adds at most one
    ingress rule, always on port 5432. *)
Theorem stack_methods_only_add (stack : StackInfo)
    (lib : FargateStack.Library) (vpc : Vpc) (name : string)
    (cluster : FargateStack.Cluster) (containerDef : FargateStack.ContainerDef)
    (securityGroup : SecurityGroup) (st : FargateStack.State) :
  growsFrom st (snd (FargateStack.createECSCluster lib vpc st)) /\
  growsFrom st (snd (FargateStack.createServerlessRDS stack lib vpc st)) /\
  growsFrom st (snd (FargateStack.addIngreesRuleToRDS securityGroup st)) /\
  growsFrom st (snd (FargateStack.createECSTaskRole name st)) /\
  growsFrom st
    (snd (FargateStack.runFargateContainer name vpc cluster containerDef st)).
Proof.
  destruct st as [[ch rds inits rules] ecs svcs lbs outs].
  destruct lib as [[[carn sec] appSecret ver] v k d].
  split; [|split; [|split; [|split]]]; unfold growsFrom.
  - run_stack.
    grows_by ["ECSExecKmsKey"; "ECSExecBucket"; "Cluster"]
             (@nil (SecurityGroup * Z)) (@nil FargateStack.FargateService).
  - destruct sec as [adm|]; run_stack.
    + grows_by ["default"; "Database"; "rdsAppCredentials"; "Initializer"]
        [(functionSG
            (newCdkResourceInitializer stack "Initializer" ver
               {| vpc := vpc;
                  policies :=
                    [ {| actions := ["secretsmanager:GetSecretValue";
                                     "secretsmanager:PutSecretValue"];
                         resources := [StackBuild.secretArn appSecret] |};
                      {| actions := ["secretsmanager:GetSecretValue"];
                         resources := [StackBuild.secretArn adm] |};
                      {| actions := ["rds:*"]; resources := [carn] |} ];
                  config := mkConfig (StackBuild.secretName adm)
                                     (StackBuild.secretName appSecret) |}),
          5432)]
        (@nil FargateStack.FargateService).
    + grows_by ["default"; "Database"] (@nil (SecurityGroup * Z))
               (@nil FargateStack.FargateService).
  - destruct rds as [r|]; run_stack.
    + grows_by (@nil string) [(securityGroup, 5432)]
               (@nil FargateStack.FargateService).
    + grows_by (@nil string) (@nil (SecurityGroup * Z))
               (@nil FargateStack.FargateService).
  - destruct rds as [r|]; run_stack;
      grows_by [name ++ "-taskRole"] (@nil (SecurityGroup * Z))
               (@nil FargateStack.FargateService).
  - destruct rds as [r|]; [destruct ecs as [e|]|]; run_stack.
    + split; [exists (FargateStack.serviceIds name)
             | split; [exists [({| securityGroupName := "";
                                   sgVpc := vpc;
                                   sgAllowAllOutbound := true |}, 5432)]
                      | eexists ]];
        cbn; rewrite <- ?app_assoc; repeat split; auto; repeat constructor.
    + grows_by [name ++ "-taskRole"; name ++ "-TaskDef"]
               (@nil (SecurityGroup * Z)) (@nil FargateStack.FargateService).
    + grows_by [name ++ "-taskRole"] (@nil (SecurityGroup * Z))
               (@nil FargateStack.FargateService).
Qed.

(** ** The payload is one line of text *)

Lemma quote_char_printable (c : ascii) (rest : string) :
  all_chars printable rest = true ->
  all_chars printable (JSON.quote_char c rest) = true.
Proof.
  intros H.
  destruct c as [[] [] [] [] [] [] [] []]; cbn; exact H.
Qed.

Lemma quote_printable (s rest : string) :
  all_chars printable rest = true ->
  all_chars printable (JSON.quote s rest) = true.
Proof.
  intros H. unfold JSON.quote. cbn [all_chars].
  change (printable JSON.dquote) with true. cbn [andb].
  induction s as [|c s IH]; cbn [JSON.quote_body].
  - cbn [all_chars]. now rewrite H.
  - now apply quote_char_printable.
Qed.

Lemma members_printable (o : JSON.StringObject) (rest : string) :
  all_chars printable rest = true ->
  all_chars printable (JSON.members o rest) = true.
Proof.
  intros H. induction o as [|kv o IH]; [exact H|].
  destruct o as [|kv' o].
  - unfold JSON.members, JSON.member.
    apply quote_printable. cbn [all_chars].
    change (printable ":") with true. now apply quote_printable.
  - rewrite members_cons_cons. unfold JSON.member.
    apply quote_printable. cbn [all_chars].
    change (printable ":") with true. apply quote_printable.
    cbn [all_chars]. change (printable ",") with true. exact IH.
Qed.

(** X14.  Whatever the configuration holds, the serialised payload contains
    no control character: line breaks, tabs and the like inside names or
    values are written as escapes. *)
Theorem payload_has_no_control_character (cfg : JSON.StringObject) :
  all_chars printable (payloadOf cfg) = true.
Proof.
  unfold payloadOf. cbn [all_chars]. change (printable "{") with true.
  apply quote_printable. cbn [all_chars]. change (printable ":") with true.
  change (printable "{") with true.
  apply quote_printable. cbn [all_chars]. change (printable ":") with true.
  unfold JSON.stringify_object. cbn [all_chars].
  change (printable "{") with true.
  apply members_printable. reflexivity.
Qed.
